(** * consumo: fuel and maintenance tracker (app.py)

    A shallow embedding of [app.py]: the spreadsheet-backed store
    ([DataManager]), the two submission forms and the report page.

    Conventions of the model.
    - A pandas [DataFrame] is a list of typed rows, or the column-less frame
      [pd.DataFrame()]; on the latter a column access raises [KeyError].
    - The numeric cells of a stored record hold numbers, modelled as exact
      rationals ([Q]); rounding of binary floating point is not modelled.
      Derived columns may hold [NaN] or an infinity, as pandas produces them
      ([diff] on the first row, a division by zero).
    - A date is its proleptic ordinal ([date.toordinal()]).
    - Streamlit calls are recorded, in order, in the [ui] field of the world;
      calls on the spreadsheet connection are recorded in [calls].
    - [conn.read] returns the current content of the worksheet; the five
      second freshness window ([ttl=5]) is not modelled. *)

From Stdlib Require Import String Ascii List ZArith QArith Bool Lia Lqa.
From Stdlib Require Import Permutation Sorted OrderedTypeEx.
Import ListNotations.

Set Implicit Arguments.
Open Scope string_scope.
Open Scope Q_scope.
Open Scope bool_scope.

(** ** Numbers *)

(** A cell of a derived float64 column. *)
Inductive float64 : Type :=
| NaN
| Inf (negative : bool)
| Fin (q : Q).

Definition isna (x : float64) : bool :=
  match x with NaN => true | _ => false end.

Definition fadd (x y : float64) : float64 :=
  match x, y with
  | NaN, _ | _, NaN => NaN
  | Inf s, Inf t => if Bool.eqb s t then Inf s else NaN
  | Inf s, Fin _ => Inf s
  | Fin _, Inf t => Inf t
  | Fin a, Fin b => Fin (a + b)
  end.

Definition Qneg (q : Q) : bool :=
  match q ?= 0 with Lt => true | _ => false end.

(** numpy's true division: no exception on a zero divisor. *)
Definition fdiv (x y : float64) : float64 :=
  match x, y with
  | NaN, _ | _, NaN => NaN
  | Inf _, Inf _ => NaN
  | Inf s, Fin b => Inf (xorb s (Qneg b))
  | Fin _, Inf _ => Fin 0
  | Fin a, Fin b =>
      if Qeq_bool b 0 then
        match a ?= 0 with
        | Eq => NaN
        | Lt => Inf true
        | Gt => Inf false
        end
      else Fin (a / b)
  end.

(** [Series.sum()], which skips NaN cells; the sum of nothing is 0. *)
Definition series_sum (s : list float64) : float64 :=
  fold_left fadd (filter (fun x => negb (isna x)) s) (Fin 0).

(** [Series.mean()], which skips NaN cells; the mean of nothing is NaN. *)
Definition series_mean (s : list float64) : float64 :=
  let vals := filter (fun x => negb (isna x)) s in
  match vals with
  | [] => NaN
  | _ => fdiv (fold_left fadd vals (Fin 0)) (Fin (inject_Z (Z.of_nat (length vals))))
  end.

(** Sum of a column of stored numbers. *)
Definition Qsum (s : list Q) : Q := fold_left Qplus s 0.

(** ** Records *)

Definition date := Z.

Record fuel_row : Type := mk_fuel {
  fuel_Data : date;
  fuel_Veiculo : string;
  Quilometragem : Q;
  Litros : Q;
  Preco_L : Q;
  Valor_Total : Q
}.

Record maint_row : Type := mk_maint {
  maint_Data : date;
  maint_Veiculo : string;
  Descricao : string;
  Valor : Q
}.

(** A row of the processed fuel frame: the original columns and the two
    derived ones. *)
Record proc_row : Type := mk_proc {
  base : fuel_row;
  km_diff : float64;
  consumo_km_l : float64
}.

(** The columns every frame of the program has. *)
Class Row (R : Type) : Type := {
  Data : R -> date;
  Veiculo : R -> string
}.

#[export] Instance fuel_Row : Row fuel_row :=
  {| Data := fuel_Data; Veiculo := fuel_Veiculo |}.
#[export] Instance maint_Row : Row maint_row :=
  {| Data := maint_Data; Veiculo := maint_Veiculo |}.
#[export] Instance proc_Row : Row proc_row :=
  {| Data := fun r => fuel_Data (base r); Veiculo := fun r => fuel_Veiculo (base r) |}.

(** ** Frames and exceptions *)

Inductive DataFrame (R : Type) : Type :=
| NoColumns
| Table (rows : list R).
Arguments NoColumns {R}.
Arguments Table {R} rows.

Definition frame_rows {R} (df : DataFrame R) : list R :=
  match df with NoColumns => [] | Table rows => rows end.

(** [df.empty] *)
Definition empty {R} (df : DataFrame R) : bool :=
  match frame_rows df with [] => true | _ => false end.

(** [pd.concat([a, b], ignore_index=True)] *)
Definition concat2 {R} (a b : DataFrame R) : DataFrame R :=
  match a, b with
  | NoColumns, NoColumns => NoColumns
  | _, _ => Table (frame_rows a ++ frame_rows b)
  end.

Inductive exn : Type :=
| KeyError (column : string)
| StoreError (msg : string)
| RerunException.

Inductive outcome (A : Type) : Type :=
| Ok (a : A)
| Raise (e : exn).
Arguments Ok {A} a.
Arguments Raise {A} e.

(** ** Frame operations *)

Section FrameOps.
Context {R : Type} `{Row R}.

(** [df[df['Veículo'] == veiculo]] *)
Definition loc_veiculo (veiculo : string) (rows : list R) : list R :=
  filter (fun r => String.eqb (Veiculo r) veiculo) rows.

(** Order of [sort_values(['Veículo', 'Data'])]: vehicle first, then date. *)
Definition key_leb (x y : R) : bool :=
  match String.compare (Veiculo x) (Veiculo y) with
  | Lt => true
  | Eq => Z.leb (Data x) (Data y)
  | Gt => false
  end.

Fixpoint insert_sorted (x : R) (l : list R) : list R :=
  match l with
  | [] => [x]
  | y :: t => if key_leb x y then x :: y :: t else y :: insert_sorted x t
  end.

(** The sort on several columns is stable: rows with equal keys keep their
    order. *)
Fixpoint sort_values (l : list R) : list R :=
  match l with
  | [] => []
  | x :: t => insert_sorted x (sort_values t)
  end.

(** The two orders as relations. *)
Definition key_le (x y : R) : Prop := key_leb x y = true.
Definition date_le (x y : R) : Prop := (Data x <= Data y)%Z.

End FrameOps.

(** [Series.unique()]: the distinct values, in order of first appearance. *)
Fixpoint unique_from (seen : list string) (s : list string) : list string :=
  match s with
  | [] => []
  | x :: t =>
      if existsb (String.eqb x) seen then unique_from seen t
      else x :: unique_from (x :: seen) t
  end.

Definition unique (s : list string) : list string := unique_from [] s.

(** [Series.diff()] *)
Fixpoint diff_from (prev : Q) (s : list Q) : list float64 :=
  match s with
  | [] => []
  | x :: t => Fin (x - prev) :: diff_from x t
  end.

Definition diff (s : list Q) : list float64 :=
  match s with
  | [] => []
  | x :: t => NaN :: diff_from x t
  end.

(** [df.groupby('Veículo')['Valor'].sum()]: one pass over the rows, one
    accumulator per key, the keys kept in ascending order. *)
Fixpoint add_to_group (veiculo : string) (valor : Q) (acc : list (string * Q))
  : list (string * Q) :=
  match acc with
  | [] => [(veiculo, 0 + valor)]
  | (k, s) :: t =>
      match String.compare veiculo k with
      | Lt => (veiculo, 0 + valor) :: (k, s) :: t
      | Eq => (k, s + valor) :: t
      | Gt => (k, s) :: add_to_group veiculo valor t
      end
  end.

Definition groupby_Veiculo_Valor_sum (rows : list maint_row) : list (string * Q) :=
  fold_left (fun acc r => add_to_group (Veiculo r) (Valor r) acc) rows [].

(** ** The world: the spreadsheet and the page *)

Inductive widget : Type :=
| st_header (s : string)
| st_subheader (s : string)
| st_divider
| st_metric (label : string) (value : float64)
| st_warning (s : string)
| st_error (s : string)
| st_success (s : string)
| st_dataframe
| st_plotly_chart (title : string).

Inductive call : Type :=
| conn_read_call (worksheet : string)
| conn_update_call (worksheet : string).

(** A worksheet: its rows, and whether the connection currently fails on it
    (with which message). *)
Record sheet (R : Type) : Type := mk_sheet {
  contents : list R;
  read_error : option string;
  update_error : option string
}.

Record world : Type := mk_world {
  Consumo_sheet : sheet fuel_row;
  Manutencao_sheet : sheet maint_row;
  ui : list widget;
  calls : list call
}.

Definition emit (x : widget) (w : world) : world :=
  mk_world (Consumo_sheet w) (Manutencao_sheet w) (ui w ++ [x]) (calls w).

Definition log_call (c : call) (w : world) : world :=
  mk_world (Consumo_sheet w) (Manutencao_sheet w) (ui w) (calls w ++ [c]).

Definition set_contents {R} (rows : list R) (s : sheet R) : sheet R :=
  mk_sheet rows (read_error s) (update_error s).

(** A worksheet name, with the sheet of the world it denotes. *)
Record worksheet (R : Type) : Type := mk_worksheet {
  ws_name : string;
  ws_get : world -> sheet R;
  ws_put : sheet R -> world -> world
}.

Definition Consumo : worksheet fuel_row :=
  mk_worksheet "Consumo"%string Consumo_sheet
    (fun s w => mk_world s (Manutencao_sheet w) (ui w) (calls w)).

Definition Manutencao : worksheet maint_row :=
  mk_worksheet "Manutenção"%string Manutencao_sheet
    (fun s w => mk_world (Consumo_sheet w) s (ui w) (calls w)).

(** ** Computations: state and exceptions *)

Definition M (A : Type) : Type := world -> outcome A * world.

Definition ret {A} (a : A) : M A := fun w => (Ok a, w).

Definition bind {A B} (m : M A) (k : A -> M B) : M B :=
  fun w =>
    match m w with
    | (Ok a, w') => k a w'
    | (Raise e, w') => (Raise e, w')
    end.

Definition raise {A} (e : exn) : M A := fun w => (Raise e, w).

Notation "x <- m ;; k" := (bind m (fun x => k))
  (at level 61, m at next level, right associativity).
Notation "m ;;; k" := (bind m (fun _ => k))
  (at level 61, right associativity).

(** [RerunException] is a control-flow signal, not an [Exception]. *)
Definition is_Exception (e : exn) : bool :=
  match e with RerunException => false | _ => true end.

(** [try: m except Exception as e: handler e] *)
Definition try_except {A} (m : M A) (handler : exn -> M A) : M A :=
  fun w =>
    match m w with
    | (Ok a, w') => (Ok a, w')
    | (Raise e, w') => if is_Exception e then handler e w' else (Raise e, w')
    end.

Definition lift {A} (o : outcome A) : M A := fun w => (o, w).

Definition st (x : widget) : M unit := fun w => (Ok tt, emit x w).

Definition st_rerun : M unit := raise RerunException.

Fixpoint for_each {A} (l : list A) (body : A -> M unit) : M unit :=
  match l with
  | [] => ret tt
  | x :: t => body x ;;; for_each t body
  end.

(** [str(e)] *)
Definition str (e : exn) : string :=
  match e with
  | KeyError column => ("'" ++ column ++ "'")%string
  | StoreError msg => msg
  | RerunException => ""%string
  end.

(** ** The spreadsheet connection *)

Section Connection.
Context {R : Type}.

(** [conn.read(worksheet=..., ttl=5)] *)
Definition conn_read (ws : worksheet R) : M (DataFrame R) :=
  fun w =>
    let w' := log_call (conn_read_call (ws_name ws)) w in
    match read_error (ws_get ws w) with
    | Some msg => (Raise (StoreError msg), w')
    | None => (Ok (Table (contents (ws_get ws w))), w')
    end.

(** [conn.update(worksheet=..., data=df)]: the worksheet is rewritten. *)
Definition conn_update (ws : worksheet R) (df : DataFrame R) : M unit :=
  fun w =>
    let w' := log_call (conn_update_call (ws_name ws)) w in
    match update_error (ws_get ws w) with
    | Some msg => (Raise (StoreError msg), w')
    | None => (Ok tt, ws_put ws (set_contents (frame_rows df) (ws_get ws w')) w')
    end.

End Connection.

Module DataManager.
Section Generic.
Context {R : Type}.

(** The conversion of the ['Data'] column to dates is the identity on typed
    rows; when it raises, that is a [read_error] of the sheet. *)
Definition read_data (ws : worksheet R) : M (DataFrame R) :=
  try_except
    (df <- conn_read ws ;; ret df)
    (fun e => st (st_error ("Erro ao ler dados: " ++ str e)) ;;; ret NoColumns).

Definition add_data (ws : worksheet R) (data : R) : M bool :=
  try_except
    (df_existing <- read_data ws ;;
     let df_new := Table [data] in
     let df_updated := concat2 df_existing df_new in
     conn_update ws df_updated ;;;
     ret true)
    (fun e => st (st_error ("Erro ao adicionar dados: " ++ str e)) ;;; ret false).

End Generic.
End DataManager.

(** ** The fuel form *)

Module FuelConsumptionUI.

(** The values of the widgets of the form in one run of the script. *)
Record form : Type := mk_form {
  fuel_vehicle : string;
  fuel_date : date;
  fuel_km : Q;
  fuel_liters : Q;
  fuel_price : Q;
  fuel_submit : bool
}.

Definition _handle_fuel_submission (veiculo : string) (data : date)
  (km litros preco valor_total : Q) : M unit :=
  if Qle_bool km 0 || Qle_bool litros 0 || Qle_bool preco 0 then
    st (st_warning "Por favor, preencha todos os campos com valores válidos.")
  else
    let novo_registro := mk_fuel data veiculo km litros preco valor_total in
    ok <- DataManager.add_data Consumo novo_registro ;;
    if ok : bool then
      st (st_success "Abastecimento registrado com sucesso!") ;;; st_rerun
    else ret tt.

Definition _display_fuel_records : M unit :=
  st st_divider ;;;
  st (st_subheader "Registros de Consumo") ;;;
  dados_consumo <- DataManager.read_data Consumo ;;
  if negb (empty dados_consumo) then st st_dataframe else ret tt.

Definition render (f : form) : M unit :=
  st (st_header "Registro de Consumo de Combustível") ;;;
  let veiculo := fuel_vehicle f in
  let data_abastecimento := fuel_date f in
  let km_atual := fuel_km f in
  let litros := fuel_liters f in
  let preco_litro := fuel_price f in
  let valor_total := litros * preco_litro in
  st (st_metric "Valor Total" (Fin valor_total)) ;;;
  (if fuel_submit f then
     _handle_fuel_submission veiculo data_abastecimento km_atual litros preco_litro
       valor_total
   else ret tt) ;;;
  _display_fuel_records.

End FuelConsumptionUI.

(** ** The maintenance form *)

Module MaintenanceUI.

Record form : Type := mk_form {
  maint_vehicle : string;
  maint_desc : string;
  maint_value : Q;
  maint_date : date;
  maint_submit : bool
}.

Definition _handle_maintenance_submission (veiculo descricao : string)
  (valor : Q) (data : date) : M unit :=
  if String.eqb descricao "" || Qle_bool valor 0 then
    st (st_warning "Por favor, preencha todos os campos com valores válidos.")
  else
    let novo_registro := mk_maint data veiculo descricao valor in
    ok <- DataManager.add_data Manutencao novo_registro ;;
    if ok : bool then
      st (st_success "Manutenção registrada com sucesso!") ;;; st_rerun
    else ret tt.

Definition _display_maintenance_records : M unit :=
  st st_divider ;;;
  st (st_subheader "Registros de Manutenção") ;;;
  dados_manutencao <- DataManager.read_data Manutencao ;;
  if negb (empty dados_manutencao) then st st_dataframe else ret tt.

Definition render (f : form) : M unit :=
  st (st_header "Registro de Manutenção") ;;;
  (if maint_submit f then
     _handle_maintenance_submission (maint_vehicle f) (maint_desc f) (maint_value f)
       (maint_date f)
   else ret tt) ;;;
  _display_maintenance_records.

End MaintenanceUI.

(** ** The report page *)

Module ReportsUI.

(** The body of the loop of [_processar_dados_consumo] for one vehicle. *)
Definition processar_veiculo (df_veiculo : list fuel_row) : list proc_row :=
  let with_diff := combine df_veiculo (diff (map Quilometragem df_veiculo)) in
  let with_consumo :=
    map (fun rd => mk_proc (fst rd) (snd rd) (fdiv (snd rd) (Fin (Litros (fst rd)))))
        with_diff in
  filter (fun r => negb (isna (consumo_km_l r))) with_consumo.

Definition _processar_dados_consumo (df : DataFrame fuel_row)
  : outcome (DataFrame proc_row) :=
  match df with
  | NoColumns => Raise (KeyError "Veículo")
  | Table rows =>
      let df := sort_values rows in
      let resultado :=
        map (fun veiculo => processar_veiculo (loc_veiculo veiculo df))
            (unique (map Veiculo df)) in
      match resultado with
      | [] => Ok NoColumns
      | _ => Ok (Table (List.concat resultado))
      end
  end.

Definition _render_fuel_statistics (df : DataFrame proc_row) : M unit :=
  st (st_subheader "Estatísticas por Veículo") ;;;
  match df with
  | NoColumns => raise (KeyError "Veículo")
  | Table rows =>
      for_each (unique (map Veiculo rows)) (fun veiculo =>
        let df_veiculo := loc_veiculo veiculo rows in
        let custo_veiculo := Qsum (map (fun r => Valor_Total (base r)) df_veiculo) in
        st (st_metric ("Custo Total com Combustível - " ++ veiculo) (Fin custo_veiculo)) ;;;
        let km_veiculo := series_sum (map km_diff df_veiculo) in
        st (st_metric ("Quilômetros Percorridos - " ++ veiculo) km_veiculo) ;;;
        let consumo_medio := series_mean (map consumo_km_l df_veiculo) in
        st (st_metric ("Consumo Médio - " ++ veiculo) consumo_medio)) ;;;
      st (st_subheader "Estatísticas de Consumo") ;;;
      if negb (empty df) then
        let custo_total := Qsum (map (fun r => Valor_Total (base r)) rows) in
        st (st_metric "Custo Total com Combustível" (Fin custo_total)) ;;;
        let km_total := series_sum (map km_diff rows) in
        st (st_metric "Quilômetros Percorridos" km_total)
      else ret tt
  end.

Definition _render_fuel_charts (df_original : DataFrame fuel_row)
  (df_processado : DataFrame proc_row) : M unit :=
  st st_divider ;;;
  st (st_subheader "Análise de Consumo") ;;;
  match df_original with
  | NoColumns => raise (KeyError "Data")
  | Table _ =>
      st (st_plotly_chart "Consumo de Combustível ao Longo do Tempo") ;;;
      if negb (empty df_processado) then
        st (st_plotly_chart "Consumo (km/L) ao Longo do Tempo")
      else ret tt
  end.

Definition _render_maintenance_statistics (df : DataFrame maint_row) : M unit :=
  st st_divider ;;;
  st (st_subheader "Estatísticas de Manutenção") ;;;
  match df with
  | NoColumns => raise (KeyError "Veículo")
  | Table rows =>
      let gastos_por_veiculo := groupby_Veiculo_Valor_sum rows in
      let gasto_total := Qsum (map Valor rows) in
      for_each gastos_por_veiculo (fun item =>
        st (st_metric ("Total Gasto - " ++ fst item) (Fin (snd item)))) ;;;
      st (st_metric "Gasto Total com Manutenção" (Fin gasto_total)) ;;;
      st (st_plotly_chart "Distribuição de Gastos por Veículo")
  end.

Definition _render_maintenance_charts (df : DataFrame maint_row) : M unit :=
  ret tt.

Definition render : M unit :=
  st (st_header "Relatórios") ;;;
  dados_consumo <- DataManager.read_data Consumo ;;
  dados_manutencao <- DataManager.read_data Manutencao ;;
  (if negb (empty dados_consumo) then
     dados_processados <- lift (_processar_dados_consumo dados_consumo) ;;
     _render_fuel_statistics dados_processados ;;;
     _render_fuel_charts dados_consumo dados_processados
   else ret tt) ;;;
  (if negb (empty dados_manutencao) then
     _render_maintenance_statistics dados_manutencao ;;;
     _render_maintenance_charts dados_manutencao
   else ret tt).

End ReportsUI.

(** ** The specification's words, as definitions *)

(** Efficiency samples of one vehicle's records [g], already in date order:
    one sample per record after the first, pairing it with its predecessor. *)
Fixpoint samples_from (prev : fuel_row) (later : list fuel_row) : list proc_row :=
  match later with
  | [] => []
  | cur :: t =>
      let delta := Quilometragem cur - Quilometragem prev in
      mk_proc cur (Fin delta) (Fin (delta / Litros cur)) :: samples_from cur t
  end.

Definition efficiency_samples (g : list fuel_row) : list proc_row :=
  match g with
  | [] => []
  | first :: later => samples_from first later
  end.

(** Appending the records [rs] one at a time. *)
Fixpoint add_all {R} (ws : worksheet R) (rs : list R) : M (list bool) :=
  match rs with
  | [] => ret []
  | r :: t =>
      ok <- DataManager.add_data ws r ;;
      oks <- add_all ws t ;;
      ret (ok :: oks)
  end.

(** The predicate of a well-formed fuel record: total cost = liters x price. *)
Definition cost_ok (r : fuel_row) : Prop :=
  Valor_Total r = Litros r * Preco_L r.

(** A submission of either form, as its handler receives it. *)
Inductive submission : Type :=
| FuelSubmission (veiculo : string) (data : date) (km litros preco valor_total : Q)
| MaintenanceSubmission (veiculo descricao : string) (valor : Q) (data : date).

Definition handle_submission (s : submission) : M unit :=
  match s with
  | FuelSubmission veiculo data km litros preco valor_total =>
      FuelConsumptionUI._handle_fuel_submission veiculo data km litros preco valor_total
  | MaintenanceSubmission veiculo descricao valor data =>
      MaintenanceUI._handle_maintenance_submission veiculo descricao valor data
  end.

(** The submission fails the validation gate. *)
Definition fails_validation (s : submission) : Prop :=
  match s with
  | FuelSubmission _ _ km litros preco _ => km <= 0 \/ litros <= 0 \/ preco <= 0
  | MaintenanceSubmission _ descricao valor _ => descricao = "" \/ valor <= 0
  end.

Definition warning_text : string :=
  "Por favor, preencha todos os campos com valores válidos.".

(** What a worksheet name must satisfy to denote a sheet of the world: the
    page and the call log are separate from it. *)
Record lawful {R} (ws : worksheet R) : Prop := mk_lawful {
  get_put : forall s w, ws_get ws (ws_put ws s w) = s;
  get_emit : forall x w, ws_get ws (emit x w) = ws_get ws w;
  get_log_call : forall c w, ws_get ws (log_call c w) = ws_get ws w;
  ui_put : forall s w, ui (ws_put ws s w) = ui w;
  calls_put : forall s w, calls (ws_put ws s w) = calls w
}.

(** ** What the report page shows *)

Definition emit_all (xs : list widget) (w : world) : world :=
  mk_world (Consumo_sheet w) (Manutencao_sheet w) (ui w ++ xs) (calls w).

(** The three metrics of one vehicle in [_render_fuel_statistics]. *)
Definition fuel_vehicle_widgets (rows : list proc_row) (veiculo : string) : list widget :=
  let df_veiculo := loc_veiculo veiculo rows in
  [ st_metric ("Custo Total com Combustível - " ++ veiculo)
      (Fin (Qsum (map (fun r => Valor_Total (base r)) df_veiculo)));
    st_metric ("Quilômetros Percorridos - " ++ veiculo)
      (series_sum (map km_diff df_veiculo));
    st_metric ("Consumo Médio - " ++ veiculo)
      (series_mean (map consumo_km_l df_veiculo)) ].

(** Everything [_render_fuel_statistics] shows for a frame with columns. *)
Definition fuel_statistics_widgets (rows : list proc_row) : list widget :=
  [st_subheader "Estatísticas por Veículo"] ++
  flat_map (fuel_vehicle_widgets rows) (unique (map Veiculo rows)) ++
  [st_subheader "Estatísticas de Consumo"] ++
  (if negb (empty (Table rows)) then
     [ st_metric "Custo Total com Combustível"
         (Fin (Qsum (map (fun r => Valor_Total (base r)) rows)));
       st_metric "Quilômetros Percorridos" (series_sum (map km_diff rows)) ]
   else []).

Definition maintenance_item_widget (item : string * Q) : widget :=
  st_metric ("Total Gasto - " ++ fst item) (Fin (snd item)).

(** Everything [_render_maintenance_statistics] shows for a frame with
    columns. *)
Definition maintenance_statistics_widgets (rows : list maint_row) : list widget :=
  [st_divider; st_subheader "Estatísticas de Manutenção"] ++
  map maintenance_item_widget (groupby_Veiculo_Valor_sum rows) ++
  [ st_metric "Gasto Total com Manutenção" (Fin (Qsum (map Valor rows)));
    st_plotly_chart "Distribuição de Gastos por Veículo" ].

(** Reading a grouped result at a key. *)
Fixpoint lookup (k : string) (acc : list (string * Q)) : option Q :=
  match acc with
  | [] => None
  | (k', s) :: t => if String.eqb k k' then Some s else lookup k t
  end.

(** Keys in strictly ascending order. *)
Definition keys_lt (a b : string * Q) : Prop := String.compare (fst a) (fst b) = Lt.

(** ** Example data *)

Definition abastecimento1 : fuel_row := mk_fuel 738000%Z "Carro" 1000 10 5 50.
Definition abastecimento2 : fuel_row := mk_fuel 738010%Z "Carro" 1400 10 6 60.
Definition abastecimento3 : fuel_row := mk_fuel 738005%Z "Moto" 500 5 6 30.
Definition abastecimento_recuo : fuel_row := mk_fuel 738020%Z "Carro" 900 10 6 60.

Definition manutencoes : list maint_row :=
  [ mk_maint 738000%Z "Car" "oil" 100;
    mk_maint 738001%Z "Car" "tyres" 50;
    mk_maint 738002%Z "Moto" "chain" 30 ].

Definition world_of (consumo : list fuel_row) (manutencao : list maint_row) : world :=
  mk_world (mk_sheet consumo None None) (mk_sheet manutencao None None) [] [].

(** A world whose fuel worksheet cannot be read but can be written. *)
Definition world_unreadable (consumo : list fuel_row) : world :=
  mk_world (mk_sheet consumo (Some "bad date") None) (mk_sheet [] None None) [] [].

(** ** A run of the script *)

(** The three [with tab] blocks of [main], in order: the fuel page, the
    maintenance page, the report page, each on the shared [DataManager].
    The page configuration, the title and the footer are not modelled. *)
Definition main_tabs (fuel : FuelConsumptionUI.form) (maint : MaintenanceUI.form)
  : M unit :=
  FuelConsumptionUI.render fuel ;;;
  MaintenanceUI.render maint ;;;
  ReportsUI.render.

(** The worksheet a submission is written to. *)
Definition target_name (s : submission) : string :=
  match s with
  | FuelSubmission _ _ _ _ _ _ => ws_name Consumo
  | MaintenanceSubmission _ _ _ _ => ws_name Manutencao
  end.

Definition target_update_error (s : submission) (w : world) : option string :=
  match s with
  | FuelSubmission _ _ _ _ _ _ => update_error (Consumo_sheet w)
  | MaintenanceSubmission _ _ _ _ => update_error (Manutencao_sheet w)
  end.

(** [w'] differs from [w] by what is on the page only. *)
Definition page_only (w w' : world) : Prop :=
  Consumo_sheet w' = Consumo_sheet w /\
  Manutencao_sheet w' = Manutencao_sheet w /\
  calls w' = calls w.

(** Rows with the same vehicle and date are the same row. *)
Definition distinct_keys {R} `{Row R} (rows : list R) : Prop :=
  forall x y, In x rows -> In y rows ->
              Veiculo x = Veiculo y -> Data x = Data y -> x = y.

(** A worksheet whose writes fail. *)
Definition world_unwritable (consumo : list fuel_row) : world :=
  mk_world (mk_sheet consumo None (Some "quota exceeded")) (mk_sheet [] None None) [] [].

Definition abastecimento_sem_litros : fuel_row := mk_fuel 738030%Z "Carro" 1600 0 6 0.

(** ** The report page, record set by record set *)

(** The rows [read_data] hands to the page: none when the read raises. *)
Definition dataset {R} (s : sheet R) : list R :=
  match read_error s with
  | Some _ => []
  | None => contents s
  end.

(** What [read_data] shows for a sheet: the read error, if any. *)
Definition read_error_widgets {R} (s : sheet R) : list widget :=
  match read_error s with
  | Some msg => [st_error ("Erro ao ler dados: " ++ msg)]
  | None => []
  end.

(** Everything [_render_fuel_charts] shows for an original frame with
    columns. *)
Definition fuel_charts_widgets (df_processado : DataFrame proc_row) : list widget :=
  [ st_divider; st_subheader "Análise de Consumo";
    st_plotly_chart "Consumo de Combustível ao Longo do Tempo" ] ++
  (if negb (empty df_processado)
   then [st_plotly_chart "Consumo (km/L) ao Longo do Tempo"]
   else []).

(** What the report page shows for the fuel records alone. *)
Definition fuel_block (rows : list fuel_row) : list widget :=
  match rows with
  | [] => []
  | _ =>
      match ReportsUI._processar_dados_consumo (Table rows) with
      | Ok df => fuel_statistics_widgets (frame_rows df) ++ fuel_charts_widgets df
      | Raise _ => []
      end
  end.

(** What the report page shows for the maintenance records alone. *)
Definition maintenance_block (rows : list maint_row) : list widget :=
  match rows with
  | [] => []
  | _ => maintenance_statistics_widgets rows
  end.

Inductive record_set : Type :=
| Fuel_records
| Maintenance_records.

(** The record set is empty: its read failed, or its worksheet has no row. *)
Definition record_set_empty (k : record_set) (w : world) : Prop :=
  match k with
  | Fuel_records => dataset (Consumo_sheet w) = []
  | Maintenance_records => dataset (Manutencao_sheet w) = []
  end.

(** What the report page shows for the other record set. *)
Definition other_block (k : record_set) (w : world) : list widget :=
  match k with
  | Fuel_records => maintenance_block (dataset (Manutencao_sheet w))
  | Maintenance_records => fuel_block (dataset (Consumo_sheet w))
  end.

(** * Properties *)

(** ** Strings as sort keys *)

Lemma compare_refl (s : string) : String.compare s s = Eq.
Proof. apply String_as_OT.cmp_eq. reflexivity. Qed.

Lemma compare_Eq_eq (s t : string) : String.compare s t = Eq -> s = t.
Proof. apply String_as_OT.cmp_eq. Qed.

Lemma compare_Lt_trans (s t u : string) :
  String.compare s t = Lt -> String.compare t u = Lt -> String.compare s u = Lt.
Proof.
  intros Hst Htu. apply String_as_OT.cmp_lt.
  apply String_as_OT.lt_trans with t; apply String_as_OT.cmp_lt; assumption.
Qed.

Lemma compare_Gt_Lt (s t : string) :
  String.compare s t = Gt -> String.compare t s = Lt.
Proof.
  intros Hst. rewrite String.compare_antisym, Hst. reflexivity.
Qed.

Lemma compare_Lt_neq (s t : string) : String.compare s t = Lt -> s <> t.
Proof.
  intros Hlt ->. rewrite compare_refl in Hlt. discriminate.
Qed.

(** ** The sort *)

Section SortFacts.
Context {R : Type} `{Row R}.

Lemma key_le_trans (x y z : R) : key_le x y -> key_le y z -> key_le x z.
Proof.
  unfold key_le, key_leb.
  destruct (String.compare (Veiculo x) (Veiculo y)) eqn:Hxy; try discriminate;
  destruct (String.compare (Veiculo y) (Veiculo z)) eqn:Hyz; try discriminate;
  intros Hd1 Hd2.
  - apply compare_Eq_eq in Hxy, Hyz. rewrite Hxy, Hyz, compare_refl.
    apply Z.leb_le. apply Z.leb_le in Hd1, Hd2. lia.
  - apply compare_Eq_eq in Hxy. rewrite Hxy, Hyz. reflexivity.
  - apply compare_Eq_eq in Hyz. rewrite <- Hyz, Hxy. reflexivity.
  - rewrite (compare_Lt_trans _ _ _ Hxy Hyz). reflexivity.
Qed.

Lemma key_le_total (x y : R) : key_leb x y = false -> key_le y x.
Proof.
  unfold key_le, key_leb.
  destruct (String.compare (Veiculo x) (Veiculo y)) eqn:Hxy; try discriminate.
  - apply compare_Eq_eq in Hxy. rewrite Hxy, compare_refl. intros Hd.
    apply Z.leb_le. apply Z.leb_gt in Hd. lia.
  - intros _. rewrite (compare_Gt_Lt _ _ Hxy). reflexivity.
Qed.

Lemma key_le_same_veiculo (x y : R) :
  Veiculo x = Veiculo y -> key_le x y -> date_le x y.
Proof.
  unfold key_le, key_leb, date_le. intros ->. rewrite compare_refl.
  apply Z.leb_le.
Qed.

Lemma insert_sorted_perm (x : R) (l : list R) :
  Permutation (insert_sorted x l) (x :: l).
Proof.
  induction l as [|y t IH]; simpl.
  - apply Permutation_refl.
  - destruct (key_leb x y).
    + apply Permutation_refl.
    + apply perm_trans with (y :: x :: t).
      * apply perm_skip, IH.
      * apply perm_swap.
Qed.

Lemma sort_values_perm (l : list R) : Permutation (sort_values l) l.
Proof.
  induction l as [|x t IH]; simpl.
  - apply perm_nil.
  - apply perm_trans with (x :: sort_values t).
    + apply insert_sorted_perm.
    + apply perm_skip, IH.
Qed.

Lemma insert_sorted_sorted (x : R) (l : list R) :
  StronglySorted key_le l -> StronglySorted key_le (insert_sorted x l).
Proof.
  induction 1 as [|y t Hs IH Hall]; simpl.
  - constructor; constructor.
  - destruct (key_leb x y) eqn:Hxy.
    + constructor.
      * constructor; assumption.
      * constructor; [exact Hxy|].
        eapply Forall_impl; [|exact Hall].
        intros z Hyz. exact (key_le_trans Hxy Hyz).
    + constructor; [exact IH|].
      apply Forall_forall. intros z Hz.
      apply (Permutation_in _ (insert_sorted_perm x t)) in Hz.
      destruct Hz as [<-|Hz].
      * apply key_le_total, Hxy.
      * rewrite Forall_forall in Hall. apply Hall, Hz.
Qed.

Lemma sort_values_sorted (l : list R) : StronglySorted key_le (sort_values l).
Proof.
  induction l as [|x t IH]; simpl.
  - constructor.
  - apply insert_sorted_sorted, IH.
Qed.

Lemma loc_veiculo_perm (v : string) (l l' : list R) :
  Permutation l l' -> Permutation (loc_veiculo v l) (loc_veiculo v l').
Proof.
  unfold loc_veiculo.
  induction 1 as [|x l l' _ IH|x y l|l l' l'' _ IH1 _ IH2]; simpl.
  - apply perm_nil.
  - destruct (String.eqb (Veiculo x) v); [apply perm_skip|]; exact IH.
  - destruct (String.eqb (Veiculo x) v), (String.eqb (Veiculo y) v);
      try apply Permutation_refl. apply perm_swap.
  - exact (perm_trans IH1 IH2).
Qed.

Lemma loc_veiculo_sorted (v : string) (l : list R) :
  StronglySorted key_le l -> StronglySorted date_le (loc_veiculo v l).
Proof.
  unfold loc_veiculo.
  induction 1 as [|x t Hs IH Hall]; simpl.
  - constructor.
  - destruct (String.eqb (Veiculo x) v) eqn:Hx; [|exact IH].
    constructor; [exact IH|].
    apply Forall_forall. intros y Hy. apply filter_In in Hy. destruct Hy as [Hy Hv].
    apply key_le_same_veiculo.
    + apply String.eqb_eq in Hx, Hv. congruence.
    + rewrite Forall_forall in Hall. apply Hall, Hy.
Qed.

Lemma loc_veiculo_all (v : string) (l : list R) :
  Forall (fun r => Veiculo r = v) l -> loc_veiculo v l = l.
Proof.
  unfold loc_veiculo. induction 1 as [|x t Hx _ IH]; simpl.
  - reflexivity.
  - rewrite Hx, String.eqb_refl, IH. reflexivity.
Qed.

Lemma loc_veiculo_none (v : string) (l : list R) :
  Forall (fun r => Veiculo r <> v) l -> loc_veiculo v l = [].
Proof.
  unfold loc_veiculo. induction 1 as [|x t Hx _ IH]; simpl.
  - reflexivity.
  - apply String.eqb_neq in Hx. rewrite Hx. exact IH.
Qed.

Lemma loc_veiculo_app (v : string) (l l' : list R) :
  loc_veiculo v (l ++ l') = (loc_veiculo v l ++ loc_veiculo v l')%list.
Proof. apply filter_app. Qed.

End SortFacts.

(** ** [unique] *)

Lemma existsb_eqb_In (x : string) (seen : list string) :
  existsb (String.eqb x) seen = true <-> In x seen.
Proof.
  rewrite existsb_exists. split.
  - intros [y [Hy Heq]]. apply String.eqb_eq in Heq. subst. exact Hy.
  - intros Hx. exists x. split; [exact Hx|apply String.eqb_refl].
Qed.

Lemma unique_from_In (x : string) (s seen : list string) :
  In x (unique_from seen s) <-> In x s /\ ~ In x seen.
Proof.
  revert seen. induction s as [|y t IH]; intros seen; simpl.
  - tauto.
  - destruct (existsb (String.eqb y) seen) eqn:Hy.
    + apply existsb_eqb_In in Hy. rewrite IH. split.
      * tauto.
      * intros [[->|Hx] Hn]; tauto.
    + assert (Hn : ~ In y seen).
      { intros Hin. apply existsb_eqb_In in Hin. congruence. }
      simpl. rewrite IH. simpl. split.
      * intros [->|[Hx Hs]]; tauto.
      * intros [[->|Hx] Hs]; [tauto|].
        destruct (string_dec y x); tauto.
Qed.

Lemma unique_from_NoDup (s seen : list string) : NoDup (unique_from seen s).
Proof.
  revert seen. induction s as [|y t IH]; intros seen; simpl.
  - constructor.
  - destruct (existsb (String.eqb y) seen); [apply IH|].
    constructor; [|apply IH].
    rewrite unique_from_In. simpl. tauto.
Qed.

Lemma unique_In (x : string) (s : list string) : In x (unique s) <-> In x s.
Proof. unfold unique. rewrite unique_from_In. simpl. tauto. Qed.

Lemma unique_NoDup (s : list string) : NoDup (unique s).
Proof. apply unique_from_NoDup. Qed.

(** ** The efficiency processor *)

Lemma Qeq_bool_pos (b : Q) : 0 < b -> Qeq_bool b 0 = false.
Proof.
  intros Hb. destruct (Qeq_bool b 0) eqn:Heq; [|reflexivity].
  apply Qeq_bool_eq in Heq. rewrite Heq in Hb.
  exfalso. exact (Qlt_irrefl 0 Hb).
Qed.

Lemma processar_from_samples (prev : fuel_row) (later : list fuel_row) :
  Forall (fun r => 0 < Litros r) later ->
  filter (fun r => negb (isna (consumo_km_l r)))
    (map (fun rd => mk_proc (fst rd) (snd rd) (fdiv (snd rd) (Fin (Litros (fst rd)))))
       (combine later (diff_from (Quilometragem prev) (map Quilometragem later))))
  = samples_from prev later.
Proof.
  intros Hall. revert prev.
  induction Hall as [|cur t Hcur _ IH]; intros prev; simpl.
  - reflexivity.
  - rewrite (Qeq_bool_pos Hcur). simpl. rewrite IH. reflexivity.
Qed.

Lemma processar_veiculo_samples (g : list fuel_row) :
  Forall (fun r => 0 < Litros r) g ->
  ReportsUI.processar_veiculo g = efficiency_samples g.
Proof.
  unfold ReportsUI.processar_veiculo.
  destruct g as [|first later]; intros Hall; simpl.
  - reflexivity.
  - inversion Hall; subst. apply processar_from_samples. assumption.
Qed.

Lemma processar_veiculo_base (g : list fuel_row) (r : proc_row) :
  In r (ReportsUI.processar_veiculo g) -> In (base r) g.
Proof.
  unfold ReportsUI.processar_veiculo. intros Hr.
  apply filter_In in Hr. destruct Hr as [Hr _].
  apply in_map_iff in Hr. destruct Hr as [[x d] [<- Hin]]. simpl.
  exact (in_combine_l _ _ _ _ Hin).
Qed.

Lemma samples_from_base (prev : fuel_row) (later : list fuel_row) :
  map base (samples_from prev later) = later.
Proof.
  revert prev. induction later as [|cur t IH]; intros prev; simpl.
  - reflexivity.
  - rewrite IH. reflexivity.
Qed.

Lemma efficiency_samples_base (g : list fuel_row) :
  map base (efficiency_samples g) = tl g.
Proof.
  destruct g as [|first later]; simpl; [reflexivity|apply samples_from_base].
Qed.

(** Rows of the concatenated result, by vehicle. *)
Lemma loc_veiculo_concat (f : string -> list proc_row) (vs : list string) (v : string) :
  (forall v' r, In r (f v') -> Veiculo r = v') ->
  NoDup vs ->
  loc_veiculo v (List.concat (map f vs)) = if in_dec string_dec v vs then f v else [].
Proof.
  intros Hf. induction 1 as [|a t Ha Hnd IH]; simpl.
  - reflexivity.
  - rewrite loc_veiculo_app, IH.
    destruct (string_dec a v) as [->|Hne].
    + destruct (in_dec string_dec v t) as [Hin|_]; [contradiction|].
      rewrite app_nil_r. apply loc_veiculo_all.
      apply Forall_forall. intros r Hr. exact (Hf _ _ Hr).
    + rewrite loc_veiculo_none.
      * simpl. destruct (in_dec string_dec v t); reflexivity.
      * apply Forall_forall. intros r Hr. rewrite (Hf _ _ Hr). exact Hne.
Qed.

Lemma processar_rows (rows : list fuel_row) :
  exists out,
    ReportsUI._processar_dados_consumo (Table rows) = Ok out /\
    frame_rows out =
      List.concat
        (map (fun veiculo =>
                ReportsUI.processar_veiculo (loc_veiculo veiculo (sort_values rows)))
             (unique (map Veiculo (sort_values rows)))).
Proof.
  unfold ReportsUI._processar_dados_consumo.
  destruct (map _ (unique (map Veiculo (sort_values rows)))) as [|g gs] eqn:Hres.
  - exists NoColumns. split; reflexivity.
  - exists (Table (List.concat (g :: gs))). split; reflexivity.
Qed.

Lemma processar_loc_veiculo (rows : list fuel_row) (v : string) :
  exists out,
    ReportsUI._processar_dados_consumo (Table rows) = Ok out /\
    loc_veiculo v (frame_rows out)
    = ReportsUI.processar_veiculo (loc_veiculo v (sort_values rows)).
Proof.
  destruct (processar_rows rows) as [out [Hout Hrows]].
  exists out. split; [exact Hout|]. rewrite Hrows.
  rewrite (loc_veiculo_concat
             (fun veiculo =>
                ReportsUI.processar_veiculo (loc_veiculo veiculo (sort_values rows)))).
  - destruct (in_dec string_dec v (unique (map Veiculo (sort_values rows)))) as [|Hn];
      [reflexivity|].
    rewrite loc_veiculo_none; [reflexivity|].
    apply Forall_forall. intros r Hr Heq. apply Hn, unique_In.
    rewrite <- Heq. apply in_map, Hr.
  - intros v' r Hr. apply processar_veiculo_base in Hr.
    apply filter_In in Hr. apply String.eqb_eq, Hr.
  - apply unique_NoDup.
Qed.

(** C1. On records that all have liters > 0, the processor handles each
    vehicle separately: the vehicle's records [g] are taken in ascending date
    order, the earliest one is dropped (hence nothing is left of a vehicle
    with one record), and each other record yields one row whose distance
    delta is its odometer minus that of the preceding record of the vehicle
    and whose efficiency is that delta divided by its own liters. *)
Theorem processar_dados_consumo_per_vehicle (rows : list fuel_row) :
  Forall (fun r => 0 < Litros r) rows ->
  exists out,
    ReportsUI._processar_dados_consumo (Table rows) = Ok out /\
    forall veiculo, exists g,
      Permutation g (loc_veiculo veiculo rows) /\
      StronglySorted date_le g /\
      loc_veiculo veiculo (frame_rows out) = efficiency_samples g /\
      map base (loc_veiculo veiculo (frame_rows out)) = tl g /\
      (length g = 1%nat -> loc_veiculo veiculo (frame_rows out) = []).
Proof.
  intros Hall.
  destruct (processar_rows rows) as [out [Hout _]].
  exists out. split; [exact Hout|]. intros v.
  exists (loc_veiculo v (sort_values rows)).
  destruct (processar_loc_veiculo rows v) as [out' [Hout' Hloc]].
  rewrite Hout in Hout'. injection Hout' as <-.
  assert (Hg : Forall (fun r => 0 < Litros r) (loc_veiculo v (sort_values rows))).
  { apply Forall_forall. intros r Hr. apply filter_In in Hr. destruct Hr as [Hr _].
    apply (Permutation_in _ (sort_values_perm rows)) in Hr.
    rewrite Forall_forall in Hall. apply Hall, Hr. }
  rewrite Hloc, (processar_veiculo_samples Hg).
  split; [apply loc_veiculo_perm, sort_values_perm|].
  split; [apply loc_veiculo_sorted, sort_values_sorted|].
  split; [reflexivity|].
  split; [apply efficiency_samples_base|].
  destruct (loc_veiculo v (sort_values rows)) as [|first [|second later]];
    simpl; intros Hlen; try reflexivity; discriminate.
Qed.

(** The example of the specification: odometers 1000 then 1400, 10 liters
    each, give one row with distance delta 400 and efficiency 40. *)
Example processar_two_fillups :
  exists e,
    ReportsUI._processar_dados_consumo (Table [abastecimento1; abastecimento2])
    = Ok (Table [mk_proc abastecimento2 (Fin 400) (Fin e)]) /\ e == 40.
Proof. eexists. split; reflexivity. Qed.

(** Two records with no other record of the group dated between them are
    neighbours in the group once it is in date order. *)
Lemma adjacent_in_sorted (r1 r2 : fuel_row) (g : list fuel_row) :
  StronglySorted date_le g ->
  In r1 g -> In r2 g ->
  (Data r1 < Data r2)%Z ->
  (forall r, In r g ->
             r = r1 \/ r = r2 \/ (Data r < Data r1)%Z \/ (Data r2 < Data r)%Z) ->
  exists l1 l2, g = (l1 ++ r1 :: r2 :: l2)%list.
Proof.
  intros Hs. induction Hs as [|a t Hs IH Hall]; intros H1 H2 Hd Hbetween.
  - destruct H1.
  - rewrite Forall_forall in Hall. unfold date_le in Hall.
    assert (Htail : In r1 t -> In r2 t -> exists l1 l2, (a :: t) = (l1 ++ r1 :: r2 :: l2)%list).
    { intros H1t H2t.
      destruct (IH H1t H2t Hd (fun r Hr => Hbetween r (or_intror Hr))) as [l1 [l2 ->]].
      exists (a :: l1), l2. reflexivity. }
    destruct (Hbetween a (or_introl eq_refl)) as [Ha|[Ha|[Ha|Ha]]].
    + subst a.
      assert (H2t : In r2 t).
      { destruct H2 as [H2|H2]; [|exact H2]. subst r2. lia. }
      destruct t as [|b t']; [destruct H2t|].
      destruct (Hbetween b (or_intror (or_introl eq_refl))) as [Hb|[Hb|[Hb|Hb]]].
      * subst b. apply Htail; [left; reflexivity|exact H2t].
      * subst b. exists [], t'. reflexivity.
      * specialize (Hall b (or_introl eq_refl)). lia.
      * inversion Hs as [|? ? _ Hall']; subst.
        rewrite Forall_forall in Hall'. unfold date_le in Hall'.
        destruct H2t as [H2t|H2t]; [subst b; lia|].
        specialize (Hall' r2 H2t). lia.
    + subst a.
      assert (H1t : In r1 t).
      { destruct H1 as [H1|H1]; [|exact H1]. subst r1. lia. }
      specialize (Hall r1 H1t). lia.
    + apply Htail.
      * destruct H1 as [H1|H1]; [|exact H1]. subst a. lia.
      * destruct H2 as [H2|H2]; [|exact H2]. subst a. lia.
    + assert (H1t : In r1 t).
      { destruct H1 as [H1|H1]; [|exact H1]. subst a. lia. }
      specialize (Hall r1 H1t). lia.
Qed.

Lemma diff_from_adjacent (l1 l2 : list fuel_row) (prev cur : fuel_row) (p : Q) :
  In (cur, Fin (Quilometragem cur - Quilometragem prev))
    (combine (l1 ++ prev :: cur :: l2)
       (diff_from p (map Quilometragem (l1 ++ prev :: cur :: l2)))).
Proof.
  revert p. induction l1 as [|a t IH]; intros p; simpl.
  - right. left. reflexivity.
  - right. apply IH.
Qed.

(** The row of a record that follows another one in its group is kept when
    its liters are positive, whatever the other records are. *)
Lemma processar_veiculo_adjacent (l1 l2 : list fuel_row) (prev cur : fuel_row) :
  0 < Litros cur ->
  In (mk_proc cur (Fin (Quilometragem cur - Quilometragem prev))
        (Fin ((Quilometragem cur - Quilometragem prev) / Litros cur)))
     (ReportsUI.processar_veiculo (l1 ++ prev :: cur :: l2)).
Proof.
  intros Hl. unfold ReportsUI.processar_veiculo.
  apply filter_In. split; [|reflexivity].
  apply in_map_iff.
  exists (cur, Fin (Quilometragem cur - Quilometragem prev)). split.
  - simpl. rewrite (Qeq_bool_pos Hl). reflexivity.
  - destruct l1 as [|a t]; simpl.
    + right. left. reflexivity.
    + right. apply diff_from_adjacent.
Qed.

(** C10. In any set of fuel records, take two records of one vehicle that
    follow each other in date order (no other record of the vehicle is dated
    between them), the later one with a smaller odometer and positive
    liters. The processor outputs the row of the later record, with the
    odometer difference as distance delta and a strictly negative
    efficiency: the row is neither validated away nor dropped. *)
Theorem decreasing_odometer_negative_efficiency (rows : list fuel_row)
  (r1 r2 : fuel_row) :
  In r1 rows -> In r2 rows ->
  Veiculo r1 = Veiculo r2 ->
  (Data r1 < Data r2)%Z ->
  (forall r, In r rows -> Veiculo r = Veiculo r1 ->
             r = r1 \/ r = r2 \/ (Data r < Data r1)%Z \/ (Data r2 < Data r)%Z) ->
  Quilometragem r2 < Quilometragem r1 ->
  0 < Litros r2 ->
  exists out e,
    ReportsUI._processar_dados_consumo (Table rows) = Ok out /\
    In (mk_proc r2 (Fin (Quilometragem r2 - Quilometragem r1)) (Fin e))
       (frame_rows out) /\
    e = (Quilometragem r2 - Quilometragem r1) / Litros r2 /\
    e < 0.
Proof.
  intros H1 H2 Hv Hd Hbetween Hkm Hl.
  destruct (processar_rows rows) as [out [Hout Hrows]].
  exists out, ((Quilometragem r2 - Quilometragem r1) / Litros r2).
  split; [exact Hout|]. split; [|split; [reflexivity|]].
  - set (g := loc_veiculo (Veiculo r1) (sort_values rows)).
    assert (Hin : forall r, In r rows -> Veiculo r = Veiculo r1 -> In r g).
    { intros r Hr Hvr. apply filter_In. split.
      - apply (Permutation_in _ (Permutation_sym (sort_values_perm rows))), Hr.
      - apply String.eqb_eq, Hvr. }
    destruct (@adjacent_in_sorted r1 r2 g) as [l1 [l2 Hg]].
    + apply loc_veiculo_sorted, sort_values_sorted.
    + apply Hin; [exact H1|reflexivity].
    + apply Hin; [exact H2|symmetry; exact Hv].
    + exact Hd.
    + intros r Hr. apply filter_In in Hr. destruct Hr as [Hr Hvr].
      apply Hbetween.
      * apply (Permutation_in _ (sort_values_perm rows)), Hr.
      * apply String.eqb_eq, Hvr.
    + rewrite Hrows. apply in_concat.
      exists (ReportsUI.processar_veiculo g). split.
      * apply (in_map (fun veiculo =>
                         ReportsUI.processar_veiculo
                           (loc_veiculo veiculo (sort_values rows)))).
        apply unique_In. apply in_map_iff. exists r1. split; [reflexivity|].
        apply (Permutation_in _ (Permutation_sym (sort_values_perm rows))), H1.
      * rewrite Hg. apply processar_veiculo_adjacent, Hl.
  - apply Qlt_shift_div_r; [exact Hl|]. lra.
Qed.

(** ** The store *)

Lemma Consumo_lawful : lawful Consumo.
Proof. constructor; intros; reflexivity. Qed.

Lemma Manutencao_lawful : lawful Manutencao.
Proof. constructor; intros; reflexivity. Qed.

Section StoreFacts.
Context {R : Type} (ws : worksheet R) (L : lawful ws).

Lemma read_data_ok (w : world) :
  read_error (ws_get ws w) = None ->
  DataManager.read_data ws w
  = (Ok (Table (contents (ws_get ws w))), log_call (conn_read_call (ws_name ws)) w).
Proof.
  intros Hr. unfold DataManager.read_data, try_except, bind, conn_read, ret.
  rewrite Hr. reflexivity.
Qed.

Lemma read_data_fail (w : world) (msg : string) :
  read_error (ws_get ws w) = Some msg ->
  DataManager.read_data ws w
  = (Ok NoColumns,
     emit (st_error ("Erro ao ler dados: " ++ msg))
       (log_call (conn_read_call (ws_name ws)) w)).
Proof.
  intros Hr. unfold DataManager.read_data, try_except, bind, conn_read, ret.
  rewrite Hr. reflexivity.
Qed.

(** Whatever the connection does, [read_data] returns a frame and leaves the
    sheet as it is. *)
Lemma read_data_returns (w : world) :
  exists df w',
    DataManager.read_data ws w = (Ok df, w') /\
    ws_get ws w' = ws_get ws w /\
    (read_error (ws_get ws w) = None -> df = Table (contents (ws_get ws w))) /\
    (read_error (ws_get ws w) <> None -> df = NoColumns).
Proof.
  destruct (read_error (ws_get ws w)) as [msg|] eqn:Hr.
  - rewrite (read_data_fail _ Hr). eexists. eexists. split; [reflexivity|].
    rewrite (get_emit L), (get_log_call L).
    split; [reflexivity|]. split; [discriminate|reflexivity].
  - rewrite (read_data_ok _ Hr). eexists. eexists. split; [reflexivity|].
    rewrite (get_log_call L).
    split; [reflexivity|]. split; [reflexivity|congruence].
Qed.

Lemma add_data_ok (w : world) (r : R) :
  read_error (ws_get ws w) = None ->
  update_error (ws_get ws w) = None ->
  DataManager.add_data ws r w
  = (Ok true,
     ws_put ws (set_contents (contents (ws_get ws w) ++ [r]) (ws_get ws w))
       (log_call (conn_update_call (ws_name ws))
          (log_call (conn_read_call (ws_name ws)) w))).
Proof.
  intros Hr Hu. unfold DataManager.add_data, try_except, bind.
  rewrite (read_data_ok _ Hr). unfold conn_update.
  rewrite !(get_log_call L), Hu. reflexivity.
Qed.

Lemma add_data_read_fail (w : world) (r : R) (msg : string) :
  read_error (ws_get ws w) = Some msg ->
  update_error (ws_get ws w) = None ->
  DataManager.add_data ws r w
  = (Ok true,
     ws_put ws (set_contents [r] (ws_get ws w))
       (log_call (conn_update_call (ws_name ws))
          (emit (st_error ("Erro ao ler dados: " ++ msg))
             (log_call (conn_read_call (ws_name ws)) w)))).
Proof.
  intros Hr Hu. unfold DataManager.add_data, try_except, bind.
  rewrite (read_data_fail _ Hr). unfold conn_update.
  rewrite !(get_log_call L), !(get_emit L), !(get_log_call L), Hu. reflexivity.
Qed.

Lemma add_data_update_fail (w : world) (r : R) (msg : string) :
  update_error (ws_get ws w) = Some msg ->
  exists w',
    DataManager.add_data ws r w = (Ok false, w') /\ ws_get ws w' = ws_get ws w.
Proof.
  intros Hu. unfold DataManager.add_data, try_except, bind.
  destruct (read_data_returns w) as [df [w1 [Hrd [Hget _]]]].
  rewrite Hrd. unfold conn_update. rewrite Hget, Hu. simpl.
  eexists. split; [reflexivity|].
  rewrite (get_emit L), (get_log_call L). exact Hget.
Qed.

(** C4. With a store whose reads and writes succeed, appending the records
    [rs] one at a time reports success for each and leaves the worksheet
    holding its initial rows followed by [rs], in order; in particular one
    append maps the contents [s] and the record [r] to [s ++ [r]]. *)
Theorem add_all_appends_in_order (w : world) (rs : list R) :
  read_error (ws_get ws w) = None ->
  update_error (ws_get ws w) = None ->
  exists w',
    add_all ws rs w = (Ok (map (fun _ => true) rs), w') /\
    contents (ws_get ws w') = (contents (ws_get ws w) ++ rs)%list /\
    read_error (ws_get ws w') = None /\
    update_error (ws_get ws w') = None /\
    (forall r, exists w1,
        DataManager.add_data ws r w = (Ok true, w1) /\
        contents (ws_get ws w1) = (contents (ws_get ws w) ++ [r])%list).
Proof.
  intros Hr Hu.
  assert (Hone : forall w0 r,
             read_error (ws_get ws w0) = None ->
             update_error (ws_get ws w0) = None ->
             exists w1,
               DataManager.add_data ws r w0 = (Ok true, w1) /\
               contents (ws_get ws w1) = (contents (ws_get ws w0) ++ [r])%list /\
               read_error (ws_get ws w1) = None /\
               update_error (ws_get ws w1) = None).
  { intros w0 r Hr0 Hu0. eexists. split; [apply add_data_ok; assumption|].
    rewrite (get_put L). simpl. auto. }
  assert (Hall : exists w',
             add_all ws rs w = (Ok (map (fun _ => true) rs), w') /\
             contents (ws_get ws w') = (contents (ws_get ws w) ++ rs)%list /\
             read_error (ws_get ws w') = None /\
             update_error (ws_get ws w') = None).
  { revert w Hr Hu. induction rs as [|r t IH]; intros w Hr Hu; simpl.
    - exists w. unfold ret. rewrite app_nil_r. auto.
    - destruct (Hone w r Hr Hu) as [w1 [Hadd [Hc [Hr1 Hu1]]]].
      destruct (IH w1 Hr1 Hu1) as [w' [Hrest [Hc' [Hr' Hu']]]].
      exists w'. unfold bind, ret. rewrite Hadd, Hrest.
      split; [reflexivity|]. rewrite Hc', Hc, <- app_assoc. auto. }
  destruct Hall as [w' [H1 [H2 [H3 H4]]]].
  exists w'. repeat split; try assumption.
  intros r. destruct (Hone w r Hr Hu) as [w1 [Hadd [Hc _]]]. eauto.
Qed.

(** C5. When the read inside [add_data] raises and the write succeeds, the
    read error is reported by [read_data] only, [add_data] returns success,
    and the worksheet then holds the new record alone: rows stored before
    are gone, so the append differs from [s ++ [r]] whenever [s] is not
    empty. *)
Theorem add_data_after_failed_read_overwrites (w : world) (r : R) (msg : string) :
  read_error (ws_get ws w) = Some msg ->
  update_error (ws_get ws w) = None ->
  exists w',
    DataManager.add_data ws r w = (Ok true, w') /\
    contents (ws_get ws w') = [r] /\
    ui w' = (ui w ++ [st_error ("Erro ao ler dados: " ++ msg)])%list /\
    calls w' = (calls w ++ [conn_read_call (ws_name ws); conn_update_call (ws_name ws)])%list /\
    (contents (ws_get ws w) <> [] ->
     contents (ws_get ws w') <> (contents (ws_get ws w) ++ [r])%list).
Proof.
  intros Hr Hu. eexists. split; [apply add_data_read_fail; eassumption|].
  rewrite (get_put L), (ui_put L), (calls_put L). simpl.
  split; [reflexivity|]. split; [reflexivity|].
  split; [rewrite <- app_assoc; reflexivity|].
  intros Hne Heq. apply Hne.
  destruct (contents (ws_get ws w)) as [|x t]; [reflexivity|].
  simpl in Heq. injection Heq as _ Heq. destruct t; discriminate.
Qed.

End StoreFacts.

(** ** The validation gate *)

(** C3. A submission that fails its validation gate only adds the warning to
    the page: the handler returns normally, both worksheets are as before and
    the connection was not called (no read, no write, hence no record
    appended). *)
Theorem invalid_submission_rejected (s : submission) (w : world) :
  fails_validation s ->
  exists w',
    handle_submission s w = (Ok tt, w') /\
    ui w' = (ui w ++ [st_warning warning_text])%list /\
    Consumo_sheet w' = Consumo_sheet w /\
    Manutencao_sheet w' = Manutencao_sheet w /\
    calls w' = calls w.
Proof.
  intros Hbad. exists (emit (st_warning warning_text) w).
  split; [|repeat split].
  destruct s as [veiculo data km litros preco valor_total|veiculo descricao valor data];
    simpl in *.
  - unfold FuelConsumptionUI._handle_fuel_submission.
    replace (Qle_bool km 0 || Qle_bool litros 0 || Qle_bool preco 0) with true;
      [reflexivity|].
    symmetry. rewrite !orb_true_iff, !Qle_bool_iff. tauto.
  - unfold MaintenanceUI._handle_maintenance_submission.
    replace (String.eqb descricao "" || Qle_bool valor 0) with true; [reflexivity|].
    symmetry. rewrite orb_true_iff, Qle_bool_iff, String.eqb_eq. tauto.
Qed.

(** ** What a submission writes *)

(** [add_data] never raises, and the worksheet afterwards holds the former
    rows, or the former rows and the new one, or the new one alone. *)
Lemma add_data_contents {R} (ws : worksheet R) (L : lawful ws) (w : world) (r : R) :
  exists ok w',
    DataManager.add_data ws r w = (Ok ok, w') /\
    (contents (ws_get ws w') = contents (ws_get ws w) \/
     contents (ws_get ws w') = (contents (ws_get ws w) ++ [r])%list \/
     contents (ws_get ws w') = [r]).
Proof.
  destruct (update_error (ws_get ws w)) as [umsg|] eqn:Hu.
  - destruct (add_data_update_fail L w r Hu) as [w' [Hadd Hget]].
    exists false, w'. split; [exact Hadd|]. left. rewrite Hget. reflexivity.
  - destruct (read_error (ws_get ws w)) as [rmsg|] eqn:Hr.
    + eexists. eexists. split; [apply (add_data_read_fail L w r Hr Hu)|].
      right. right. rewrite (get_put L). reflexivity.
    + eexists. eexists. split; [apply (add_data_ok L w r Hr Hu)|].
      right. left. rewrite (get_put L). reflexivity.
Qed.

Lemma handle_fuel_submission_contents (veiculo : string) (data : date)
  (km litros preco valor_total : Q) (w : world) :
  exists o w',
    FuelConsumptionUI._handle_fuel_submission veiculo data km litros preco valor_total w
    = (o, w') /\
    let novo := mk_fuel data veiculo km litros preco valor_total in
    (contents (Consumo_sheet w') = contents (Consumo_sheet w) \/
     contents (Consumo_sheet w') = (contents (Consumo_sheet w) ++ [novo])%list \/
     contents (Consumo_sheet w') = [novo]).
Proof.
  unfold FuelConsumptionUI._handle_fuel_submission.
  destruct (Qle_bool km 0 || Qle_bool litros 0 || Qle_bool preco 0).
  - eexists. eexists. split; [reflexivity|]. left. reflexivity.
  - destruct (add_data_contents Consumo_lawful w
                (mk_fuel data veiculo km litros preco valor_total))
      as [ok [w1 [Hadd Hc]]].
    unfold bind. rewrite Hadd. destruct ok.
    + eexists. eexists. split; [reflexivity|]. exact Hc.
    + eexists. eexists. split; [reflexivity|]. exact Hc.
Qed.

Lemma display_fuel_records_returns (w : world) :
  exists w',
    FuelConsumptionUI._display_fuel_records w = (Ok tt, w') /\
    Consumo_sheet w' = Consumo_sheet w.
Proof.
  unfold FuelConsumptionUI._display_fuel_records, bind, st.
  destruct (read_data_returns Consumo_lawful
              (emit (st_subheader "Registros de Consumo") (emit st_divider w)))
    as [df [w1 [Hrd [Hget _]]]].
  rewrite Hrd. destruct (negb (empty df)).
  - eexists. split; [reflexivity|]. exact Hget.
  - eexists. split; [reflexivity|]. exact Hget.
Qed.

(** C9. Running the fuel page: every row of the fuel worksheet afterwards was
    there before or is the record built from the form, whose total cost is
    liters x price; so if every stored record satisfies total cost = liters x
    price before, every stored record does after. The store operation keeps
    the predicate as well: [add_data] of a record that satisfies it writes
    only records that satisfy it. *)
Theorem fuel_total_cost_invariant (f : FuelConsumptionUI.form) (w : world) :
  Forall cost_ok (contents (Consumo_sheet w)) ->
  let novo :=
    mk_fuel (FuelConsumptionUI.fuel_date f) (FuelConsumptionUI.fuel_vehicle f)
      (FuelConsumptionUI.fuel_km f) (FuelConsumptionUI.fuel_liters f)
      (FuelConsumptionUI.fuel_price f)
      (FuelConsumptionUI.fuel_liters f * FuelConsumptionUI.fuel_price f) in
  let w' := snd (FuelConsumptionUI.render f w) in
  cost_ok novo /\
  (forall r, In r (contents (Consumo_sheet w')) ->
             In r (contents (Consumo_sheet w)) \/ r = novo) /\
  Forall cost_ok (contents (Consumo_sheet w')) /\
  (forall r, cost_ok r ->
     Forall cost_ok (contents (Consumo_sheet (snd (DataManager.add_data Consumo r w))))).
Proof.
  intros Hinv novo w'.
  assert (Hnovo : cost_ok novo) by reflexivity.
  assert (Hcases : forall (r : fuel_row) (after : list fuel_row),
             after = contents (Consumo_sheet w) \/
             after = (contents (Consumo_sheet w) ++ [r])%list \/
             after = [r] ->
             forall x, In x after -> In x (contents (Consumo_sheet w)) \/ x = r).
  { intros r after [-> | [-> | ->]] x Hx.
    - left. exact Hx.
    - apply in_app_or in Hx. destruct Hx as [Hx|[<-|[]]]; auto.
    - destruct Hx as [<-|[]]. auto. }
  assert (Hrows : forall r, In r (contents (Consumo_sheet w')) ->
                            In r (contents (Consumo_sheet w)) \/ r = novo).
  { subst w'. unfold FuelConsumptionUI.render, bind, st.
    destruct (FuelConsumptionUI.fuel_submit f).
    - destruct (handle_fuel_submission_contents
                  (FuelConsumptionUI.fuel_vehicle f) (FuelConsumptionUI.fuel_date f)
                  (FuelConsumptionUI.fuel_km f) (FuelConsumptionUI.fuel_liters f)
                  (FuelConsumptionUI.fuel_price f)
                  (FuelConsumptionUI.fuel_liters f * FuelConsumptionUI.fuel_price f)
                  (emit (st_metric "Valor Total"
                           (Fin (FuelConsumptionUI.fuel_liters f
                                 * FuelConsumptionUI.fuel_price f)))
                     (emit (st_header "Registro de Consumo de Combustível") w)))
        as [o [w1 [Hh Hc]]].
      rewrite Hh. simpl in Hc.
      destruct o as [[]|e].
      + destruct (display_fuel_records_returns w1) as [w2 [Hd Hsame]].
        rewrite Hd. simpl. rewrite Hsame. apply Hcases. exact Hc.
      + simpl. apply Hcases. exact Hc.
    - unfold ret.
      destruct (display_fuel_records_returns
                  (emit (st_metric "Valor Total"
                           (Fin (FuelConsumptionUI.fuel_liters f
                                 * FuelConsumptionUI.fuel_price f)))
                     (emit (st_header "Registro de Consumo de Combustível") w)))
        as [w2 [Hd Hsame]].
      rewrite Hd. simpl. rewrite Hsame. simpl. auto. }
  split; [exact Hnovo|]. split; [exact Hrows|]. split.
  - apply Forall_forall. intros r Hr. destruct (Hrows r Hr) as [Hold| ->].
    + rewrite Forall_forall in Hinv. apply Hinv, Hold.
    + exact Hnovo.
  - intros r Hr. apply Forall_forall. intros x Hx.
    destruct (add_data_contents Consumo_lawful w r) as [ok [w1 [Hadd Hc]]].
    rewrite Hadd in Hx. simpl in Hx.
    destruct (Hcases r _ Hc x Hx) as [Hold| ->].
    + rewrite Forall_forall in Hinv. apply Hinv, Hold.
    + exact Hr.
Qed.

(** ** The page *)

Lemma emit_all_nil (w : world) : emit_all [] w = w.
Proof. destruct w. unfold emit_all. simpl. rewrite app_nil_r. reflexivity. Qed.

Lemma emit_all_app (xs ys : list widget) (w : world) :
  emit_all ys (emit_all xs w) = emit_all (xs ++ ys) w.
Proof. unfold emit_all. simpl. rewrite app_assoc. reflexivity. Qed.

Lemma for_each_emits {A} (f : A -> list widget) (body : A -> M unit) (l : list A) :
  (forall x w, body x w = (Ok tt, emit_all (f x) w)) ->
  forall w, for_each l body w = (Ok tt, emit_all (flat_map f l) w).
Proof.
  intros Hbody. induction l as [|x t IH]; intros w; simpl.
  - unfold ret. rewrite emit_all_nil. reflexivity.
  - unfold bind. rewrite Hbody, IH, emit_all_app. reflexivity.
Qed.

Lemma flat_map_singleton {A B} (f : A -> B) (l : list A) :
  flat_map (fun x => [f x]) l = map f l.
Proof.
  induction l as [|a t IH]; simpl; [reflexivity|rewrite IH; reflexivity].
Qed.

Lemma render_fuel_statistics_Table (rows : list proc_row) (w : world) :
  ReportsUI._render_fuel_statistics (Table rows) w
  = (Ok tt, emit_all (fuel_statistics_widgets rows) w).
Proof.
  unfold ReportsUI._render_fuel_statistics, bind at 1.
  unfold st at 1. unfold bind at 1.
  rewrite (for_each_emits (fuel_vehicle_widgets rows)).
  - unfold fuel_statistics_widgets, bind, st.
    destruct (negb (empty (Table rows))); unfold ret;
      unfold emit, emit_all; simpl; rewrite <- ?app_assoc; simpl;
      rewrite ?app_nil_r; reflexivity.
  - intros v w0. unfold bind, st, fuel_vehicle_widgets, emit, emit_all. simpl.
    rewrite <- !app_assoc. reflexivity.
Qed.

Lemma render_maintenance_statistics_Table (rows : list maint_row) (w : world) :
  ReportsUI._render_maintenance_statistics (Table rows) w
  = (Ok tt, emit_all (maintenance_statistics_widgets rows) w).
Proof.
  unfold ReportsUI._render_maintenance_statistics, bind at 1.
  unfold st at 1. unfold bind at 1. unfold st at 1. unfold bind at 1.
  rewrite (for_each_emits (fun item => [maintenance_item_widget item])).
  - unfold maintenance_statistics_widgets, bind, st, emit, emit_all. simpl.
    rewrite flat_map_singleton, <- !app_assoc. reflexivity.
  - intros item w0. reflexivity.
Qed.

(** ** Maintenance totals *)

Lemma lookup_above (k : string) (l : list (string * Q)) :
  Forall (fun b => String.compare k (fst b) = Lt) l -> lookup k l = None.
Proof.
  induction 1 as [|[k' s] t Hlt _ IH]; simpl.
  - reflexivity.
  - simpl in Hlt. apply compare_Lt_neq in Hlt. apply String.eqb_neq in Hlt.
    rewrite Hlt. exact IH.
Qed.

Lemma lookup_add_to_group (acc : list (string * Q)) (k v : string) (x : Q) :
  StronglySorted keys_lt acc ->
  lookup v (add_to_group k x acc)
  = if String.eqb v k
    then Some (match lookup k acc with Some s => s + x | None => 0 + x end)
    else lookup v acc.
Proof.
  induction 1 as [|[k' s] t Hs IH Hall]; simpl.
  - reflexivity.
  - destruct (String.compare k k') eqn:Hc; simpl.
    + apply compare_Eq_eq in Hc. subst k'. rewrite String.eqb_refl.
      destruct (String.eqb v k); reflexivity.
    + assert (Hnone : lookup k t = None).
      { apply lookup_above. eapply Forall_impl; [|exact Hall].
        intros b Hb. exact (compare_Lt_trans _ _ _ Hc Hb). }
      apply compare_Lt_neq in Hc. apply String.eqb_neq in Hc.
      rewrite Hc, Hnone. reflexivity.
    + apply compare_Gt_Lt, compare_Lt_neq in Hc.
      assert (Hkk : String.eqb k k' = false) by (apply String.eqb_neq; congruence).
      rewrite Hkk, IH.
      destruct (String.eqb v k') eqn:Hv; [|reflexivity].
      apply String.eqb_eq in Hv. subst v.
      apply String.eqb_neq in Hc. rewrite Hc. reflexivity.
Qed.

Lemma add_to_group_keys (acc : list (string * Q)) (k : string) (x : Q) (b : string * Q) :
  In b (add_to_group k x acc) -> fst b = k \/ In (fst b) (map fst acc).
Proof.
  induction acc as [|[k' s] t IH]; simpl.
  - intros [<-|[]]. left. reflexivity.
  - destruct (String.compare k k') eqn:Hc; simpl.
    + intros [<-|Hb]; simpl; [right; left; reflexivity|].
      right. right. apply in_map, Hb.
    + intros [<-|[<-|Hb]]; simpl; auto.
      right. right. apply in_map, Hb.
    + intros [<-|Hb]; simpl; [right; left; reflexivity|].
      destruct (IH Hb); auto.
Qed.

Lemma add_to_group_sorted (acc : list (string * Q)) (k : string) (x : Q) :
  StronglySorted keys_lt acc -> StronglySorted keys_lt (add_to_group k x acc).
Proof.
  induction 1 as [|[k' s] t Hs IH Hall]; simpl.
  - constructor; constructor.
  - destruct (String.compare k k') eqn:Hc.
    + apply compare_Eq_eq in Hc. subst k'. constructor; assumption.
    + constructor; [constructor; assumption|].
      constructor; [exact Hc|].
      eapply Forall_impl; [|exact Hall].
      intros b Hb. exact (compare_Lt_trans _ _ _ Hc Hb).
    + constructor; [exact IH|].
      apply Forall_forall. intros b Hb. unfold keys_lt. simpl.
      destruct (add_to_group_keys _ _ _ _ Hb) as [->|Hin].
      * apply compare_Gt_Lt, Hc.
      * apply in_map_iff in Hin. destruct Hin as [b' [Heq Hb']].
        rewrite Forall_forall in Hall. rewrite <- Heq. exact (Hall _ Hb').
Qed.

Lemma groupby_sorted (rows : list maint_row) (acc : list (string * Q)) :
  StronglySorted keys_lt acc ->
  StronglySorted keys_lt
    (fold_left (fun acc r => add_to_group (Veiculo r) (Valor r) acc) rows acc).
Proof.
  revert acc. induction rows as [|r t IH]; intros acc Hs; simpl.
  - exact Hs.
  - apply IH, add_to_group_sorted, Hs.
Qed.

Lemma lookup_fold (rows : list maint_row) (acc : list (string * Q)) (v : string) :
  StronglySorted keys_lt acc ->
  lookup v (fold_left (fun acc r => add_to_group (Veiculo r) (Valor r) acc) rows acc)
  = match lookup v acc with
    | Some s => Some (fold_left Qplus (map Valor (loc_veiculo v rows)) s)
    | None =>
        match map Valor (loc_veiculo v rows) with
        | [] => None
        | vals => Some (fold_left Qplus vals 0)
        end
    end.
Proof.
  revert acc. induction rows as [|r t IH]; intros acc Hs; simpl.
  - destruct (lookup v acc); reflexivity.
  - rewrite (IH _ (add_to_group_sorted _ _ Hs)), (lookup_add_to_group _ _ _ Hs).
    rewrite (String.eqb_sym v).
    destruct (String.eqb (maint_Veiculo r) v) eqn:Hv.
    + apply String.eqb_eq in Hv. subst v. simpl.
      destruct (lookup (maint_Veiculo r) acc); reflexivity.
    + destruct (lookup v acc); reflexivity.
Qed.

Lemma lookup_In (acc : list (string * Q)) (v : string) (total : Q) :
  StronglySorted keys_lt acc -> (In (v, total) acc <-> lookup v acc = Some total).
Proof.
  induction 1 as [|[k s] t Hs IH Hall]; simpl.
  - split; [intros []|discriminate].
  - destruct (String.eqb v k) eqn:Hv.
    + apply String.eqb_eq in Hv. subst k. split.
      * intros [Heq|Hin]; [congruence|].
        rewrite Forall_forall in Hall. apply Hall in Hin.
        unfold keys_lt in Hin. simpl in Hin. rewrite compare_refl in Hin. discriminate.
      * intros Heq. left. congruence.
    + apply String.eqb_neq in Hv. rewrite <- IH. split.
      * intros [Heq|Hin]; [congruence|exact Hin].
      * auto.
Qed.

Lemma keys_NoDup (acc : list (string * Q)) :
  StronglySorted keys_lt acc -> NoDup (map fst acc).
Proof.
  induction 1 as [|[k s] t Hs IH Hall]; simpl; constructor; [|exact IH].
  intros Hin. apply in_map_iff in Hin. destruct Hin as [b [Heq Hb]].
  rewrite Forall_forall in Hall. apply Hall in Hb.
  unfold keys_lt in Hb. simpl in Hb. rewrite Heq, compare_refl in Hb. discriminate.
Qed.

Lemma loc_veiculo_nil_iff {R} `{Row R} (v : string) (rows : list R) :
  loc_veiculo v rows = [] <-> ~ In v (map Veiculo rows).
Proof.
  unfold loc_veiculo. induction rows as [|r t IH]; simpl.
  - tauto.
  - destruct (String.eqb (Veiculo r) v) eqn:Hv.
    + apply String.eqb_eq in Hv. split; [discriminate|]. intros Hn. tauto.
    + apply String.eqb_neq in Hv. rewrite IH. tauto.
Qed.

(** C7. The maintenance statistics show one total per vehicle that has a
    record, equal to the sum of the costs of that vehicle's records, then the
    overall total, the sum of the costs of all records. On the records
    (Car,100), (Car,50), (Moto,30) the totals are Car = 150, Moto = 30 and
    180 overall. *)
Theorem maintenance_totals_sum_costs (rows : list maint_row) (w : world) :
  ReportsUI._render_maintenance_statistics (Table rows) w
  = (Ok tt,
     emit_all
       ([st_divider; st_subheader "Estatísticas de Manutenção"] ++
        map maintenance_item_widget (groupby_Veiculo_Valor_sum rows) ++
        [ st_metric "Gasto Total com Manutenção" (Fin (Qsum (map Valor rows)));
          st_plotly_chart "Distribuição de Gastos por Veículo" ]) w) /\
  (forall veiculo total,
      In (veiculo, total) (groupby_Veiculo_Valor_sum rows) <->
      In veiculo (map Veiculo rows) /\
      total = Qsum (map Valor (loc_veiculo veiculo rows))) /\
  NoDup (map fst (groupby_Veiculo_Valor_sum rows)) /\
  groupby_Veiculo_Valor_sum manutencoes = [("Car", 150); ("Moto", 30)] /\
  Qsum (map Valor manutencoes) = 180.
Proof.
  assert (Hs : StronglySorted keys_lt (groupby_Veiculo_Valor_sum rows)).
  { apply groupby_sorted. constructor. }
  split; [apply render_maintenance_statistics_Table|].
  split; [|split; [apply keys_NoDup, Hs|split; reflexivity]].
  intros v total. rewrite (lookup_In _ _ Hs).
  unfold groupby_Veiculo_Valor_sum. rewrite lookup_fold by constructor. simpl.
  unfold Qsum.
  destruct (loc_veiculo v rows) as [|r t] eqn:Hloc; simpl.
  - apply loc_veiculo_nil_iff in Hloc. split; [discriminate|tauto].
  - assert (Hin : In v (map Veiculo rows)).
    { destruct (in_dec string_dec v (map Veiculo rows)) as [Hin|Hn]; [exact Hin|].
      apply loc_veiculo_nil_iff in Hn. congruence. }
    split.
    + intros Heq. split; [exact Hin|congruence].
    + intros [_ ->]. reflexivity.
Qed.

(** ** The report page as a whole *)

Lemma processar_Table_nonempty (r : fuel_row) (t : list fuel_row) :
  exists prows, ReportsUI._processar_dados_consumo (Table (r :: t)) = Ok (Table prows).
Proof.
  unfold ReportsUI._processar_dados_consumo.
  destruct (sort_values (r :: t)) as [|x l] eqn:Hsort.
  - exfalso. apply (Permutation_nil_cons (l := t) (x := r)).
    rewrite <- Hsort. apply sort_values_perm.
  - unfold unique. simpl. eexists. reflexivity.
Qed.

Lemma render_fuel_charts_returns (rows : list fuel_row) (df : DataFrame proc_row)
  (w : world) :
  exists w', ReportsUI._render_fuel_charts (Table rows) df w = (Ok tt, w').
Proof.
  unfold ReportsUI._render_fuel_charts, bind, st.
  destruct (negb (empty df)); eexists; reflexivity.
Qed.

Lemma display_maintenance_records_returns (w : world) :
  exists w',
    MaintenanceUI._display_maintenance_records w = (Ok tt, w') /\
    Manutencao_sheet w' = Manutencao_sheet w.
Proof.
  unfold MaintenanceUI._display_maintenance_records, bind, st.
  destruct (read_data_returns Manutencao_lawful
              (emit (st_subheader "Registros de Manutenção") (emit st_divider w)))
    as [df [w1 [Hrd [Hget _]]]].
  rewrite Hrd. destruct (negb (empty df)).
  - eexists. split; [reflexivity|]. exact Hget.
  - eexists. split; [reflexivity|]. exact Hget.
Qed.

(** The report page never raises. *)
Lemma reports_render_returns (w : world) :
  exists w', ReportsUI.render w = (Ok tt, w').
Proof.
  unfold ReportsUI.render. unfold bind at 1. unfold st at 1. unfold bind at 1.
  destruct (read_data_returns Consumo_lawful (emit (st_header "Relatórios") w))
    as [df1 [w1 [Hrd1 _]]].
  rewrite Hrd1. unfold bind at 1.
  destruct (read_data_returns Manutencao_lawful w1) as [df2 [w2 [Hrd2 _]]].
  rewrite Hrd2. unfold bind at 1.
  assert (Hfuel : exists w3,
             (if negb (empty df1)
              then
                dados_processados <- lift (ReportsUI._processar_dados_consumo df1) ;;
                ReportsUI._render_fuel_statistics dados_processados ;;;
                ReportsUI._render_fuel_charts df1 dados_processados
              else ret tt) w2 = (Ok tt, w3)).
  { destruct df1 as [|[|r t]]; [eexists; reflexivity|eexists; reflexivity|].
    unfold empty. cbn [frame_rows negb].
    destruct (processar_Table_nonempty r t) as [prows Hp].
    unfold bind, lift. rewrite Hp, render_fuel_statistics_Table.
    apply render_fuel_charts_returns. }
  destruct Hfuel as [w3 Hfuel]. rewrite Hfuel.
  destruct df2 as [|[|r t]]; [eexists; reflexivity|eexists; reflexivity|].
  unfold empty. cbn [frame_rows negb].
  unfold bind. rewrite render_maintenance_statistics_Table.
  eexists. reflexivity.
Qed.

(** C8. When the read of a worksheet raises, [read_data] catches it: it
    reports the error on the page, returns the empty (column-less) frame and
    leaves the sheet alone, so that whatever follows the read in the caller
    runs on that empty frame; the pages that read the store return normally. *)
Theorem read_failure_reported_not_raised {R} (ws : worksheet R) (L : lawful ws)
  (w : world) (msg : string) :
  read_error (ws_get ws w) = Some msg ->
  let w' := emit (st_error ("Erro ao ler dados: " ++ msg))
              (log_call (conn_read_call (ws_name ws)) w) in
  DataManager.read_data ws w = (Ok NoColumns, w') /\
  empty (@NoColumns R) = true /\
  ws_get ws w' = ws_get ws w /\
  (forall A (k : DataFrame R -> M A),
      bind (DataManager.read_data ws) k w = k NoColumns w') /\
  (exists w1, ReportsUI.render w = (Ok tt, w1)) /\
  (exists w2, FuelConsumptionUI._display_fuel_records w = (Ok tt, w2)) /\
  (exists w3, MaintenanceUI._display_maintenance_records w = (Ok tt, w3)).
Proof.
  intros Hr w'.
  split; [apply read_data_fail; assumption|].
  split; [reflexivity|].
  split; [subst w'; rewrite (get_emit L), (get_log_call L); reflexivity|].
  split; [intros A k; unfold bind; rewrite (read_data_fail _ _ Hr); reflexivity|].
  split; [apply reports_render_returns|].
  split.
  - destruct (display_fuel_records_returns w) as [w2 [H2 _]]. eauto.
  - destruct (display_maintenance_records_returns w) as [w3 [H3 _]]. eauto.
Qed.

(** ** Empty datasets *)

Lemma render_fuel_charts_Table (rows : list fuel_row) (df : DataFrame proc_row)
  (w : world) :
  ReportsUI._render_fuel_charts (Table rows) df w
  = (Ok tt, emit_all (fuel_charts_widgets df) w).
Proof.
  unfold ReportsUI._render_fuel_charts, fuel_charts_widgets, bind, st, ret.
  destruct (negb (empty df)); unfold emit, emit_all; simpl;
    rewrite <- !app_assoc; reflexivity.
Qed.

(** The fuel part of the report page, for any frame the read returned. *)
Lemma reports_fuel_block (df1 : DataFrame fuel_row) (w : world) :
  (if negb (empty df1)
   then
     dados_processados <- lift (ReportsUI._processar_dados_consumo df1) ;;
     ReportsUI._render_fuel_statistics dados_processados ;;;
     ReportsUI._render_fuel_charts df1 dados_processados
   else ret tt) w
  = (Ok tt, emit_all (fuel_block (frame_rows df1)) w).
Proof.
  destruct df1 as [|[|r t]];
    [unfold ret; simpl; rewrite emit_all_nil; reflexivity
    |unfold ret; simpl; rewrite emit_all_nil; reflexivity|].
  unfold empty, fuel_block. cbn [frame_rows negb].
  destruct (processar_Table_nonempty r t) as [prows Hp].
  unfold bind, lift. rewrite Hp, render_fuel_statistics_Table, render_fuel_charts_Table.
  rewrite emit_all_app. reflexivity.
Qed.

(** The maintenance part of the report page. *)
Lemma reports_maintenance_block (df2 : DataFrame maint_row) (w : world) :
  (if negb (empty df2)
   then
     ReportsUI._render_maintenance_statistics df2 ;;;
     ReportsUI._render_maintenance_charts df2
   else ret tt) w
  = (Ok tt, emit_all (maintenance_block (frame_rows df2)) w).
Proof.
  destruct df2 as [|[|r t]];
    [unfold ret; simpl; rewrite emit_all_nil; reflexivity
    |unfold ret; simpl; rewrite emit_all_nil; reflexivity|].
  unfold empty, maintenance_block. cbn [frame_rows negb].
  unfold bind. rewrite render_maintenance_statistics_Table. reflexivity.
Qed.

(** The report page in every world: the header, the read errors, then what
    each record set gives on its own. *)
Lemma reports_render_page (w : world) :
  exists w',
    ReportsUI.render w = (Ok tt, w') /\
    ui w' = (ui w ++ [st_header "Relatórios"] ++
             read_error_widgets (Consumo_sheet w) ++
             read_error_widgets (Manutencao_sheet w) ++
             fuel_block (dataset (Consumo_sheet w)) ++
             maintenance_block (dataset (Manutencao_sheet w)))%list /\
    Consumo_sheet w' = Consumo_sheet w /\
    Manutencao_sheet w' = Manutencao_sheet w.
Proof.
  unfold ReportsUI.render. unfold bind at 1. unfold st at 1. unfold bind at 1.
  unfold dataset, read_error_widgets.
  destruct (read_error (Consumo_sheet w)) as [m1|] eqn:H1;
    destruct (read_error (Manutencao_sheet w)) as [m2|] eqn:H2.
  - rewrite (read_data_fail Consumo (emit (st_header "Relatórios") w) H1).
    unfold bind at 1.
    rewrite (read_data_fail Manutencao _ (msg := m2)) by exact H2.
    unfold bind at 1. rewrite reports_fuel_block. rewrite reports_maintenance_block.
    eexists. split; [reflexivity|]. simpl.
    rewrite <- !app_assoc. simpl. auto.
  - rewrite (read_data_fail Consumo (emit (st_header "Relatórios") w) H1).
    unfold bind at 1.
    rewrite (read_data_ok Manutencao) by exact H2.
    unfold bind at 1. rewrite reports_fuel_block. rewrite reports_maintenance_block.
    eexists. split; [reflexivity|]. simpl.
    rewrite <- !app_assoc. simpl. auto.
  - rewrite (read_data_ok Consumo (emit (st_header "Relatórios") w) H1).
    unfold bind at 1.
    rewrite (read_data_fail Manutencao _ (msg := m2)) by exact H2.
    unfold bind at 1. rewrite reports_fuel_block. rewrite reports_maintenance_block.
    eexists. split; [reflexivity|]. simpl.
    rewrite <- !app_assoc. simpl. rewrite ?app_nil_r. auto.
  - rewrite (read_data_ok Consumo (emit (st_header "Relatórios") w) H1).
    unfold bind at 1.
    rewrite (read_data_ok Manutencao) by exact H2.
    unfold bind at 1. rewrite reports_fuel_block. rewrite reports_maintenance_block.
    eexists. split; [reflexivity|]. simpl.
    rewrite <- !app_assoc. simpl. auto.
Qed.

(** C6. When a record set is empty (its read failed, or its worksheet has no
    row), the report page raises no error and shows nothing for it: the page
    holds the header, the read errors and exactly what the other record set
    gives on its own, and the store is as before. The aggregation functions
    themselves, on the empty record set, return empty or zero results: the
    processor an empty frame, the fuel statistics no metric, the fuel charts
    no efficiency chart, the maintenance statistics no vehicle and a total
    of 0. *)
Theorem aggregation_on_empty_record_set (k : record_set) (w : world) :
  record_set_empty k w ->
  (exists w',
      ReportsUI.render w = (Ok tt, w') /\
      ui w' = (ui w ++ [st_header "Relatórios"] ++
               read_error_widgets (Consumo_sheet w) ++
               read_error_widgets (Manutencao_sheet w) ++
               other_block k w)%list /\
      Consumo_sheet w' = Consumo_sheet w /\
      Manutencao_sheet w' = Manutencao_sheet w) /\
  ReportsUI._processar_dados_consumo (Table []) = Ok NoColumns /\
  empty (@NoColumns proc_row) = true /\
  ReportsUI._render_fuel_statistics (Table []) w
  = (Ok tt,
     emit_all [st_subheader "Estatísticas por Veículo";
               st_subheader "Estatísticas de Consumo"] w) /\
  ReportsUI._render_fuel_charts (Table []) (Table []) w
  = (Ok tt,
     emit_all [st_divider; st_subheader "Análise de Consumo";
               st_plotly_chart "Consumo de Combustível ao Longo do Tempo"] w) /\
  ReportsUI._render_maintenance_statistics (Table []) w
  = (Ok tt,
     emit_all [st_divider; st_subheader "Estatísticas de Manutenção";
               st_metric "Gasto Total com Manutenção" (Fin 0);
               st_plotly_chart "Distribuição de Gastos por Veículo"] w).
Proof.
  intros Hempty.
  split; [|split; [reflexivity|split; [reflexivity|
           split; [apply render_fuel_statistics_Table|
           split; [apply render_fuel_charts_Table
                  |apply render_maintenance_statistics_Table]]]]].
  destruct (reports_render_page w) as [w' [Hrun [Hui [Hc Hm]]]].
  exists w'. split; [exact Hrun|]. split; [|split; assumption].
  rewrite Hui. destruct k; simpl in Hempty; rewrite Hempty; simpl.
  - reflexivity.
  - rewrite app_nil_r. reflexivity.
Qed.

(** ** Fuel totals *)

(** C2 on three records: two of the car (costs 50 and 60) and one of the
    motorcycle (cost 30). The page shows 60 as the car's total fuel cost and
    as the overall one, and no metric for the motorcycle, while the costs of
    the car's records sum to 110 and all costs to 140. *)
Lemma fuel_cost_total_skips_first_record :
  let rows := [abastecimento1; abastecimento2; abastecimento3] in
  let w' := snd (ReportsUI.render (world_of rows [])) in
  In (st_metric "Custo Total com Combustível - Carro" (Fin 60)) (ui w') /\
  In (st_metric "Custo Total com Combustível" (Fin 60)) (ui w') /\
  In (st_metric "Quilômetros Percorridos - Carro" (Fin 400)) (ui w') /\
  (forall value, ~ In (st_metric "Custo Total com Combustível - Moto" value) (ui w')) /\
  Qsum (map Valor_Total (loc_veiculo "Carro" rows)) = 110 /\
  Qsum (map Valor_Total (loc_veiculo "Moto" rows)) = 30 /\
  Qsum (map Valor_Total rows) = 140.
Proof.
  vm_compute.
  repeat split; try (repeat first [left; reflexivity | right]).
  intros value H. repeat (destruct H as [H|H]; [discriminate H|]). exact H.
Qed.

(** ** The theorems at concrete inputs *)

Lemma processar_dados_consumo_per_vehicle_witness :
  let rows := [abastecimento2; abastecimento3; abastecimento1] in
  Forall (fun r => 0 < Litros r) rows /\
  exists out,
    ReportsUI._processar_dados_consumo (Table rows) = Ok out /\
    forall veiculo, exists g,
      Permutation g (loc_veiculo veiculo rows) /\
      StronglySorted date_le g /\
      loc_veiculo veiculo (frame_rows out) = efficiency_samples g /\
      map base (loc_veiculo veiculo (frame_rows out)) = tl g /\
      (length g = 1%nat -> loc_veiculo veiculo (frame_rows out) = []).
Proof.
  intros rows.
  assert (H : Forall (fun r => 0 < Litros r) rows).
  { repeat first [apply Forall_nil | apply Forall_cons; [reflexivity|]]. }
  exact (conj H (processar_dados_consumo_per_vehicle H)).
Defined.

Lemma decreasing_odometer_negative_efficiency_witness :
  let rows := [abastecimento_recuo; abastecimento3; abastecimento1; abastecimento2] in
  exists out e,
    ReportsUI._processar_dados_consumo (Table rows) = Ok out /\
    In (mk_proc abastecimento_recuo
          (Fin (Quilometragem abastecimento_recuo - Quilometragem abastecimento2))
          (Fin e))
       (frame_rows out) /\
    e = (Quilometragem abastecimento_recuo - Quilometragem abastecimento2)
        / Litros abastecimento_recuo /\
    e < 0.
Proof.
  intros rows.
  apply (@decreasing_odometer_negative_efficiency rows abastecimento2 abastecimento_recuo).
  - simpl. auto.
  - simpl. auto.
  - reflexivity.
  - reflexivity.
  - intros r [<-|[<-|[<-|[<-|[]]]]] Hv.
    + right. left. reflexivity.
    + discriminate Hv.
    + right. right. left. reflexivity.
    + left. reflexivity.
  - reflexivity.
  - reflexivity.
Defined.

Lemma invalid_submission_rejected_witness :
  let s := FuelSubmission "Carro" 738030%Z 1500 0 5 0 in
  let w := world_of [abastecimento1] [] in
  fails_validation s /\
  exists w',
    handle_submission s w = (Ok tt, w') /\
    ui w' = (ui w ++ [st_warning warning_text])%list /\
    Consumo_sheet w' = Consumo_sheet w /\
    Manutencao_sheet w' = Manutencao_sheet w /\
    calls w' = calls w.
Proof.
  intros s w.
  assert (H : fails_validation s).
  { right. left. apply Qle_refl. }
  exact (conj H (invalid_submission_rejected s w H)).
Defined.

Lemma add_all_appends_in_order_witness :
  let w := world_of [abastecimento1] [] in
  let rs := [abastecimento2; abastecimento3] in
  exists w',
    add_all Consumo rs w = (Ok (map (fun _ => true) rs), w') /\
    contents (ws_get Consumo w') = (contents (ws_get Consumo w) ++ rs)%list /\
    read_error (ws_get Consumo w') = None /\
    update_error (ws_get Consumo w') = None /\
    (forall r, exists w1,
        DataManager.add_data Consumo r w = (Ok true, w1) /\
        contents (ws_get Consumo w1) = (contents (ws_get Consumo w) ++ [r])%list).
Proof.
  intros w rs.
  exact (add_all_appends_in_order Consumo_lawful w rs eq_refl eq_refl).
Defined.

Lemma add_data_after_failed_read_overwrites_witness :
  let w := world_unreadable [abastecimento1] in
  let r := abastecimento2 in
  exists w',
    DataManager.add_data Consumo r w = (Ok true, w') /\
    contents (ws_get Consumo w') = [r] /\
    ui w' = (ui w ++ [st_error ("Erro ao ler dados: " ++ "bad date")])%list /\
    calls w' = (calls w ++ [conn_read_call (ws_name Consumo);
                            conn_update_call (ws_name Consumo)])%list /\
    (contents (ws_get Consumo w) <> [] ->
     contents (ws_get Consumo w') <> (contents (ws_get Consumo w) ++ [r])%list).
Proof.
  intros w r.
  exact (add_data_after_failed_read_overwrites Consumo_lawful w r eq_refl eq_refl).
Defined.

Lemma read_failure_reported_not_raised_witness :
  let w := world_unreadable [abastecimento1] in
  let w' := emit (st_error ("Erro ao ler dados: " ++ "bad date"))
              (log_call (conn_read_call (ws_name Consumo)) w) in
  DataManager.read_data Consumo w = (Ok NoColumns, w') /\
  empty (@NoColumns fuel_row) = true /\
  ws_get Consumo w' = ws_get Consumo w /\
  (forall A (k : DataFrame fuel_row -> M A),
      bind (DataManager.read_data Consumo) k w = k NoColumns w') /\
  (exists w1, ReportsUI.render w = (Ok tt, w1)) /\
  (exists w2, FuelConsumptionUI._display_fuel_records w = (Ok tt, w2)) /\
  (exists w3, MaintenanceUI._display_maintenance_records w = (Ok tt, w3)).
Proof.
  intros w.
  exact (read_failure_reported_not_raised Consumo_lawful w eq_refl).
Defined.

Lemma fuel_total_cost_invariant_witness :
  let f := FuelConsumptionUI.mk_form "Carro" 738030%Z 1500 10 5 true in
  let w := world_of [abastecimento1] [] in
  let novo := mk_fuel 738030%Z "Carro" 1500 10 5 (10 * 5) in
  let w' := snd (FuelConsumptionUI.render f w) in
  Forall cost_ok (contents (Consumo_sheet w)) /\
  cost_ok novo /\
  (forall r, In r (contents (Consumo_sheet w')) ->
             In r (contents (Consumo_sheet w)) \/ r = novo) /\
  Forall cost_ok (contents (Consumo_sheet w')) /\
  (forall r, cost_ok r ->
     Forall cost_ok (contents (Consumo_sheet (snd (DataManager.add_data Consumo r w))))).
Proof.
  intros f w novo w'.
  assert (H : Forall cost_ok (contents (Consumo_sheet w))).
  { apply Forall_cons; [reflexivity|apply Forall_nil]. }
  exact (conj H (fuel_total_cost_invariant f w H)).
Defined.

Lemma aggregation_on_empty_record_set_witness :
  let w := world_of [] manutencoes in
  record_set_empty Fuel_records w /\
  exists w',
    ReportsUI.render w = (Ok tt, w') /\
    ui w' = (ui w ++ [st_header "Relatórios"] ++
             read_error_widgets (Consumo_sheet w) ++
             read_error_widgets (Manutencao_sheet w) ++
             other_block Fuel_records w)%list /\
    Consumo_sheet w' = Consumo_sheet w /\
    Manutencao_sheet w' = Manutencao_sheet w.
Proof.
  intros w.
  assert (H : record_set_empty Fuel_records w) by reflexivity.
  exact (conj H (proj1 (aggregation_on_empty_record_set Fuel_records w H))).
Defined.

Lemma maintenance_totals_sum_costs_witness :
  In ("Car", 150) (groupby_Veiculo_Valor_sum manutencoes) /\
  In ("Moto", 30) (groupby_Veiculo_Valor_sum manutencoes).
Proof.
  destruct (maintenance_totals_sum_costs manutencoes (world_of [] manutencoes))
    as [_ [Hin _]].
  split; apply Hin; split;
    solve [reflexivity | simpl; auto].
Defined.

(** * Further properties of the code *)

(** ** The store: failures and round trips *)

Section StoreMore.
Context {R : Type} (ws : worksheet R) (L : lawful ws).

(** X1. When the write raises, [add_data] returns [False] after reporting
    the write error on the page (after the read error, if the read failed
    too); the connection was called for one read and one update, and the
    worksheet is as before. *)
Theorem add_data_write_failure (w : world) (r : R) (msg : string) :
  update_error (ws_get ws w) = Some msg ->
  exists w',
    DataManager.add_data ws r w = (Ok false, w') /\
    ws_get ws w' = ws_get ws w /\
    ui w' = (ui w ++
             match read_error (ws_get ws w) with
             | Some rmsg => [st_error ("Erro ao ler dados: " ++ rmsg)]
             | None => []
             end ++
             [st_error ("Erro ao adicionar dados: " ++ msg)])%list /\
    calls w' = (calls w ++ [conn_read_call (ws_name ws);
                            conn_update_call (ws_name ws)])%list.
Proof.
  intros Hu. unfold DataManager.add_data, try_except, bind.
  destruct (read_error (ws_get ws w)) as [rmsg|] eqn:Hr.
  - rewrite (read_data_fail _ _ Hr). unfold conn_update.
    rewrite (get_emit L), (get_log_call L), Hu. simpl.
    eexists. split; [reflexivity|].
    rewrite (get_emit L), (get_log_call L), (get_emit L), (get_log_call L). simpl.
    split; [reflexivity|]. split; [rewrite <- app_assoc; reflexivity|].
    rewrite <- app_assoc. reflexivity.
  - rewrite (read_data_ok _ _ Hr). unfold conn_update.
    rewrite (get_log_call L), Hu. simpl.
    eexists. split; [reflexivity|].
    rewrite (get_emit L), !(get_log_call L). simpl.
    split; [reflexivity|]. split; [reflexivity|].
    rewrite <- app_assoc. reflexivity.
Qed.

(** X2. While the read keeps failing and the write works, every append
    reports success and replaces the worksheet: after appending a sequence of
    records only the last one is stored. *)
Theorem add_all_with_failing_read_keeps_last (w : world) (rs : list R) (r : R)
  (msg : string) :
  read_error (ws_get ws w) = Some msg ->
  update_error (ws_get ws w) = None ->
  exists w',
    add_all ws (rs ++ [r]) w = (Ok (map (fun _ => true) (rs ++ [r])), w') /\
    contents (ws_get ws w') = [r].
Proof.
  intros Hr Hu. revert w Hr Hu.
  assert (Hone : forall w0 x,
             read_error (ws_get ws w0) = Some msg ->
             update_error (ws_get ws w0) = None ->
             exists w1,
               DataManager.add_data ws x w0 = (Ok true, w1) /\
               contents (ws_get ws w1) = [x] /\
               read_error (ws_get ws w1) = Some msg /\
               update_error (ws_get ws w1) = None).
  { intros w0 x Hr0 Hu0. eexists.
    split; [apply (add_data_read_fail L w0 x Hr0 Hu0)|].
    rewrite (get_put L). simpl. auto. }
  induction rs as [|x t IH]; intros w Hr Hu; simpl.
  - destruct (Hone w r Hr Hu) as [w1 [Hadd [Hc _]]].
    exists w1. unfold bind, ret. rewrite Hadd. auto.
  - destruct (Hone w x Hr Hu) as [w1 [Hadd [_ [Hr1 Hu1]]]].
    destruct (IH w1 Hr1 Hu1) as [w' [Hrest Hc]].
    exists w'. unfold bind, ret. rewrite Hadd. simpl in Hrest. unfold bind, ret in Hrest.
    destruct (add_all ws (t ++ [r]) w1) as [[oks|e] w2] eqn:Hall.
    + injection Hrest as -> ->. auto.
    + discriminate Hrest.
Qed.

End StoreMore.

(** ** Submissions that pass the gate *)

Lemma Qle_bool_pos (q : Q) : 0 < q -> Qle_bool q 0 = false.
Proof.
  intros Hq. destruct (Qle_bool q 0) eqn:E; [|reflexivity].
  apply Qle_bool_iff in E. exfalso. exact (Qlt_not_le _ _ Hq E).
Qed.

Lemma passes_gate (s : submission) :
  ~ fails_validation s ->
  match s with
  | FuelSubmission _ _ km litros preco _ =>
      Qle_bool km 0 || Qle_bool litros 0 || Qle_bool preco 0 = false
  | MaintenanceSubmission _ descricao valor _ =>
      String.eqb descricao "" || Qle_bool valor 0 = false
  end.
Proof.
  destruct s as [v d km l p vt|v desc val d]; simpl; intros Hn.
  - destruct (Qle_bool km 0) eqn:E1; [apply Qle_bool_iff in E1; tauto|].
    destruct (Qle_bool l 0) eqn:E2; [apply Qle_bool_iff in E2; tauto|].
    destruct (Qle_bool p 0) eqn:E3; [apply Qle_bool_iff in E3; tauto|].
    reflexivity.
  - destruct (String.eqb desc "") eqn:E1; [apply String.eqb_eq in E1; tauto|].
    destruct (Qle_bool val 0) eqn:E2; [apply Qle_bool_iff in E2; tauto|].
    reflexivity.
Qed.

(** X3. A fuel form submitted with positive odometer, liters and price, on a
    working store: the record built from the form, with total cost liters x
    price, is appended to the fuel worksheet, the success message is shown
    and the run ends with a rerun, before the table of records is displayed;
    the maintenance worksheet is not touched. *)
Theorem fuel_submission_appends_and_reruns (f : FuelConsumptionUI.form) (w : world) :
  FuelConsumptionUI.fuel_submit f = true ->
  0 < FuelConsumptionUI.fuel_km f ->
  0 < FuelConsumptionUI.fuel_liters f ->
  0 < FuelConsumptionUI.fuel_price f ->
  read_error (Consumo_sheet w) = None ->
  update_error (Consumo_sheet w) = None ->
  exists w',
    FuelConsumptionUI.render f w = (Raise RerunException, w') /\
    contents (Consumo_sheet w')
    = (contents (Consumo_sheet w) ++
       [mk_fuel (FuelConsumptionUI.fuel_date f) (FuelConsumptionUI.fuel_vehicle f)
          (FuelConsumptionUI.fuel_km f) (FuelConsumptionUI.fuel_liters f)
          (FuelConsumptionUI.fuel_price f)
          (FuelConsumptionUI.fuel_liters f * FuelConsumptionUI.fuel_price f)])%list /\
    ui w'
    = (ui w ++
       [st_header "Registro de Consumo de Combustível";
        st_metric "Valor Total"
          (Fin (FuelConsumptionUI.fuel_liters f * FuelConsumptionUI.fuel_price f));
        st_success "Abastecimento registrado com sucesso!"])%list /\
    Manutencao_sheet w' = Manutencao_sheet w /\
    calls w' = (calls w ++ [conn_read_call "Consumo"; conn_update_call "Consumo"])%list.
Proof.
  intros Hs Hkm Hl Hp Hr Hu.
  unfold FuelConsumptionUI.render, FuelConsumptionUI._handle_fuel_submission.
  rewrite Hs, (Qle_bool_pos Hkm), (Qle_bool_pos Hl), (Qle_bool_pos Hp).
  destruct w as [[c re ue] m u k]. simpl in Hr, Hu. subst re ue.
  eexists. split; [reflexivity|]. simpl.
  rewrite <- !app_assoc. simpl. auto.
Qed.

(** X4. A maintenance form submitted with a description and a positive
    cost, on a working store: the record is appended to the maintenance
    worksheet, the success message is shown and the run ends with a rerun;
    the fuel worksheet is not touched. *)
Theorem maintenance_submission_appends_and_reruns (f : MaintenanceUI.form) (w : world) :
  MaintenanceUI.maint_submit f = true ->
  MaintenanceUI.maint_desc f <> "" ->
  0 < MaintenanceUI.maint_value f ->
  read_error (Manutencao_sheet w) = None ->
  update_error (Manutencao_sheet w) = None ->
  exists w',
    MaintenanceUI.render f w = (Raise RerunException, w') /\
    contents (Manutencao_sheet w')
    = (contents (Manutencao_sheet w) ++
       [mk_maint (MaintenanceUI.maint_date f) (MaintenanceUI.maint_vehicle f)
          (MaintenanceUI.maint_desc f) (MaintenanceUI.maint_value f)])%list /\
    ui w'
    = (ui w ++
       [st_header "Registro de Manutenção";
        st_success "Manutenção registrada com sucesso!"])%list /\
    Consumo_sheet w' = Consumo_sheet w /\
    calls w' = (calls w ++ [conn_read_call "Manutenção";
                            conn_update_call "Manutenção"])%list.
Proof.
  intros Hs Hd Hv Hr Hu.
  unfold MaintenanceUI.render, MaintenanceUI._handle_maintenance_submission.
  apply String.eqb_neq in Hd. rewrite Hs, Hd, (Qle_bool_pos Hv).
  destruct w as [c [m re ue] u k]. simpl in Hr, Hu. subst re ue.
  eexists. split; [reflexivity|]. simpl.
  rewrite <- !app_assoc. simpl. auto.
Qed.

(** X5. A submission that passes the validation gate always reaches the
    store: whatever the connection does, its handler calls [conn.read] once
    and then [conn.update] once on the worksheet of the submission, and shows
    no validation warning. *)
Theorem valid_submission_reaches_store (s : submission) (w : world) :
  ~ fails_validation s ->
  exists o w' more,
    handle_submission s w = (o, w') /\
    calls w' = (calls w ++ [conn_read_call (target_name s);
                            conn_update_call (target_name s)])%list /\
    ui w' = (ui w ++ more)%list /\
    ~ In (st_warning warning_text) more.
Proof.
  intros Hok. apply passes_gate in Hok.
  destruct w as [[c1 re1 ue1] [c2 re2 ue2] u k].
  destruct s as [v d km l p vt|v desc val d]; simpl;
    [unfold FuelConsumptionUI._handle_fuel_submission
    |unfold MaintenanceUI._handle_maintenance_submission];
    rewrite Hok.
  - destruct re1 as [rm|], ue1 as [um|];
      (eexists; eexists; eexists; split; [reflexivity|]; simpl;
       split; [rewrite <- ?app_assoc; reflexivity|];
       split; [rewrite <- ?app_assoc; reflexivity|];
       simpl; intros H; repeat (destruct H as [H|H]; [discriminate H|]); exact H).
  - destruct re2 as [rm|], ue2 as [um|];
      (eexists; eexists; eexists; split; [reflexivity|]; simpl;
       split; [rewrite <- ?app_assoc; reflexivity|];
       split; [rewrite <- ?app_assoc; reflexivity|];
       simpl; intros H; repeat (destruct H as [H|H]; [discriminate H|]); exact H).
Qed.

(** X6. A submission that passes the gate while the write fails: the handler
    returns normally, with no success message and no rerun; the last message
    on the page is the write error, preceded at most by the read error; both
    worksheets are as before. *)
Theorem valid_submission_write_failure (s : submission) (w : world) (msg : string) :
  ~ fails_validation s ->
  target_update_error s w = Some msg ->
  exists w' more,
    handle_submission s w = (Ok tt, w') /\
    Consumo_sheet w' = Consumo_sheet w /\
    Manutencao_sheet w' = Manutencao_sheet w /\
    ui w' = (ui w ++ more ++ [st_error ("Erro ao adicionar dados: " ++ msg)])%list /\
    (forall x, In x more -> exists m, x = st_error m).
Proof.
  intros Hok Hu. apply passes_gate in Hok.
  destruct w as [[c1 re1 ue1] [c2 re2 ue2] u k].
  destruct s as [v d km l p vt|v desc val d]; simpl in Hu; subst;
    simpl;
    [unfold FuelConsumptionUI._handle_fuel_submission
    |unfold MaintenanceUI._handle_maintenance_submission];
    rewrite Hok.
  - destruct re1 as [rm|].
    + exists (mk_world (mk_sheet c1 (Some rm) (Some msg)) (mk_sheet c2 re2 ue2)
                ((u ++ [st_error ("Erro ao ler dados: " ++ rm)]) ++
                 [st_error ("Erro ao adicionar dados: " ++ msg)])
                ((k ++ [conn_read_call "Consumo"]) ++ [conn_update_call "Consumo"])),
        [st_error ("Erro ao ler dados: " ++ rm)].
      split; [reflexivity|]. simpl. rewrite <- !app_assoc. simpl.
      repeat split. intros x [<-|[]]. eauto.
    + exists (mk_world (mk_sheet c1 None (Some msg)) (mk_sheet c2 re2 ue2)
                (u ++ [st_error ("Erro ao adicionar dados: " ++ msg)])
                ((k ++ [conn_read_call "Consumo"]) ++ [conn_update_call "Consumo"])),
        [].
      split; [reflexivity|]. simpl. repeat split. intros x [].
  - destruct re2 as [rm|].
    + exists (mk_world (mk_sheet c1 re1 ue1) (mk_sheet c2 (Some rm) (Some msg))
                ((u ++ [st_error ("Erro ao ler dados: " ++ rm)]) ++
                 [st_error ("Erro ao adicionar dados: " ++ msg)])
                ((k ++ [conn_read_call "Manutenção"]) ++ [conn_update_call "Manutenção"])),
        [st_error ("Erro ao ler dados: " ++ rm)].
      split; [reflexivity|]. simpl. rewrite <- !app_assoc. simpl.
      repeat split. intros x [<-|[]]. eauto.
    + exists (mk_world (mk_sheet c1 re1 ue1) (mk_sheet c2 None (Some msg))
                (u ++ [st_error ("Erro ao adicionar dados: " ++ msg)])
                ((k ++ [conn_read_call "Manutenção"]) ++ [conn_update_call "Manutenção"])),
        [].
      split; [reflexivity|]. simpl. repeat split. intros x [].
Qed.

(** ** What a run changes *)

Lemma page_only_refl (w : world) : page_only w w.
Proof. unfold page_only. auto. Qed.

Lemma page_only_trans (w1 w2 w3 : world) :
  page_only w1 w2 -> page_only w2 w3 -> page_only w1 w3.
Proof.
  unfold page_only. intros [A1 [B1 C1]] [A2 [B2 C2]].
  rewrite A2, B2, C2. auto.
Qed.

Lemma page_only_emit (x : widget) (w : world) : page_only w (emit x w).
Proof. unfold page_only. auto. Qed.

Lemma page_only_emit_all (xs : list widget) (w : world) : page_only w (emit_all xs w).
Proof. unfold page_only. auto. Qed.

Lemma render_fuel_charts_page_only (rows : list fuel_row) (df : DataFrame proc_row)
  (w : world) :
  exists w', ReportsUI._render_fuel_charts (Table rows) df w = (Ok tt, w') /\
             page_only w w'.
Proof.
  unfold ReportsUI._render_fuel_charts, bind, st.
  destruct (negb (empty df)); eexists; (split; [reflexivity|]);
    unfold page_only; auto.
Qed.

(** Reading leaves both worksheets alone and logs one call. *)
Lemma read_data_logs_one_call {R} (ws : worksheet R) (w : world) :
  exists df w',
    DataManager.read_data ws w = (Ok df, w') /\
    Consumo_sheet w' = Consumo_sheet w /\
    Manutencao_sheet w' = Manutencao_sheet w /\
    calls w' = (calls w ++ [conn_read_call (ws_name ws)])%list /\
    (forall x, In x (ui w') -> In x (ui w) \/ exists m, x = st_error m).
Proof.
  unfold DataManager.read_data, try_except, bind, conn_read, ret.
  destruct (read_error (ws_get ws w)) as [msg|]; simpl.
  - eexists. eexists. split; [reflexivity|]. simpl.
    repeat split. intros x Hx. apply in_app_or in Hx.
    destruct Hx as [Hx|[<-|[]]]; eauto.
  - eexists. eexists. split; [reflexivity|]. simpl. auto.
Qed.

Lemma reports_fuel_part (df1 : DataFrame fuel_row) (w2 : world) :
  exists w3,
    (if negb (empty df1)
     then
       dados_processados <- lift (ReportsUI._processar_dados_consumo df1) ;;
       ReportsUI._render_fuel_statistics dados_processados ;;;
       ReportsUI._render_fuel_charts df1 dados_processados
     else ret tt) w2 = (Ok tt, w3) /\ page_only w2 w3.
Proof.
  destruct df1 as [|[|r t]];
    [eexists; split; [reflexivity|apply page_only_refl]
    |eexists; split; [reflexivity|apply page_only_refl]|].
  unfold empty. cbn [frame_rows negb].
  destruct (processar_Table_nonempty r t) as [prows Hp].
  unfold bind, lift. rewrite Hp, render_fuel_statistics_Table.
  destruct (render_fuel_charts_page_only (r :: t) (Table prows)
              (emit_all (fuel_statistics_widgets prows) w2)) as [w3 [H3 P3]].
  exists w3. split; [exact H3|].
  exact (page_only_trans (page_only_emit_all _ w2) P3).
Qed.

Lemma reports_maintenance_part (df2 : DataFrame maint_row) (w3 : world) :
  exists w4,
    (if negb (empty df2)
     then
       ReportsUI._render_maintenance_statistics df2 ;;;
       ReportsUI._render_maintenance_charts df2
     else ret tt) w3 = (Ok tt, w4) /\ page_only w3 w4.
Proof.
  destruct df2 as [|[|r t]];
    [eexists; split; [reflexivity|apply page_only_refl]
    |eexists; split; [reflexivity|apply page_only_refl]|].
  unfold empty. cbn [frame_rows negb].
  unfold bind. rewrite render_maintenance_statistics_Table.
  eexists. split; [reflexivity|apply page_only_emit_all].
Qed.

Lemma reports_render_sheets (w : world) :
  exists w',
    ReportsUI.render w = (Ok tt, w') /\
    Consumo_sheet w' = Consumo_sheet w /\
    Manutencao_sheet w' = Manutencao_sheet w /\
    exists reads,
      calls w' = (calls w ++ reads)%list /\
      reads = [conn_read_call (ws_name Consumo); conn_read_call (ws_name Manutencao)].
Proof.
  unfold ReportsUI.render. unfold bind at 1. unfold st at 1. unfold bind at 1.
  destruct (read_data_logs_one_call Consumo (emit (st_header "Relatórios") w))
    as [df1 [w1 [Hrd1 [Hc1 [Hm1 [Hk1 _]]]]]].
  rewrite Hrd1. unfold bind at 1.
  destruct (read_data_logs_one_call Manutencao w1)
    as [df2 [w2 [Hrd2 [Hc2 [Hm2 [Hk2 _]]]]]].
  rewrite Hrd2. unfold bind at 1.
  destruct (reports_fuel_part df1 w2) as [w3 [Hfuel [Hc3 [Hm3 Hk3]]]]. rewrite Hfuel.
  destruct (reports_maintenance_part df2 w3) as [w4 [Hmaint [Hc4 [Hm4 Hk4]]]].
  exists w4. split; [exact Hmaint|].
  rewrite Hc4, Hc3, Hc2, Hc1, Hm4, Hm3, Hm2, Hm1.
  split; [reflexivity|]. split; [reflexivity|].
  eexists. split; [|reflexivity].
  rewrite Hk4, Hk3, Hk2, Hk1. simpl. rewrite <- app_assoc. reflexivity.
Qed.

(** X7. The report page only reads: in every world it returns normally
    (never a rerun, never an exception), calls [conn.read] once on each
    worksheet and [conn.update] never, and leaves both worksheets as they
    are. *)
Theorem reports_render_read_only (w : world) :
  exists w',
    ReportsUI.render w = (Ok tt, w') /\
    Consumo_sheet w' = Consumo_sheet w /\
    Manutencao_sheet w' = Manutencao_sheet w /\
    calls w' = (calls w ++ [conn_read_call "Consumo"; conn_read_call "Manutenção"])%list.
Proof.
  unfold ReportsUI.render. unfold bind at 1. unfold st at 1. unfold bind at 1.
  destruct (read_data_logs_one_call Consumo (emit (st_header "Relatórios") w))
    as [df1 [w1 [Hrd1 [Hc1 [Hm1 [Hk1 _]]]]]].
  rewrite Hrd1. unfold bind at 1.
  destruct (read_data_logs_one_call Manutencao w1)
    as [df2 [w2 [Hrd2 [Hc2 [Hm2 [Hk2 _]]]]]].
  rewrite Hrd2. unfold bind at 1.
  destruct (reports_fuel_part df1 w2) as [w3 [Hfuel [Hc3 [Hm3 Hk3]]]]. rewrite Hfuel.
  destruct (reports_maintenance_part df2 w3) as [w4 [Hmaint [Hc4 [Hm4 Hk4]]]].
  exists w4. split; [exact Hmaint|].
  rewrite Hc4, Hc3, Hc2, Hc1, Hm4, Hm3, Hm2, Hm1, Hk4, Hk3, Hk2, Hk1.
  simpl. rewrite <- app_assoc. auto.
Qed.

(** What the fuel page does to the store: the maintenance worksheet is never
    touched, and the fuel worksheet changes only in a run that ends with a
    rerun. *)
Lemma fuel_render_outcome (f : FuelConsumptionUI.form) (w : world) :
  exists o w',
    FuelConsumptionUI.render f w = (o, w') /\
    Manutencao_sheet w' = Manutencao_sheet w /\
    (o = Ok tt /\ Consumo_sheet w' = Consumo_sheet w \/ o = Raise RerunException).
Proof.
  unfold FuelConsumptionUI.render, FuelConsumptionUI._handle_fuel_submission,
    FuelConsumptionUI._display_fuel_records.
  destruct w as [[c1 re1 ue1] m u k].
  destruct (FuelConsumptionUI.fuel_submit f);
    [destruct (Qle_bool (FuelConsumptionUI.fuel_km f) 0
               || Qle_bool (FuelConsumptionUI.fuel_liters f) 0
               || Qle_bool (FuelConsumptionUI.fuel_price f) 0)|];
    destruct re1 as [rm|], ue1 as [um|], c1 as [|r t];
    (eexists; eexists; split; [reflexivity|]; simpl; auto).
Qed.

Lemma maintenance_render_outcome (f : MaintenanceUI.form) (w : world) :
  exists o w',
    MaintenanceUI.render f w = (o, w') /\
    Consumo_sheet w' = Consumo_sheet w /\
    (o = Ok tt /\ Manutencao_sheet w' = Manutencao_sheet w \/ o = Raise RerunException).
Proof.
  unfold MaintenanceUI.render, MaintenanceUI._handle_maintenance_submission,
    MaintenanceUI._display_maintenance_records.
  destruct w as [c [c2 re2 ue2] u k].
  destruct (MaintenanceUI.maint_submit f);
    [destruct (String.eqb (MaintenanceUI.maint_desc f) ""
               || Qle_bool (MaintenanceUI.maint_value f) 0)|];
    destruct re2 as [rm|], ue2 as [um|], c2 as [|r t];
    (eexists; eexists; split; [reflexivity|]; simpl; auto).
Qed.

(** X8. One run of the three pages appends to at most one worksheet. If the
    run returns normally, neither worksheet has changed; otherwise it ended
    with a rerun, and then the fuel worksheet or the maintenance worksheet is
    as before. No other exception leaves the run. *)
Theorem main_tabs_one_append_per_run (fuel : FuelConsumptionUI.form)
  (maint : MaintenanceUI.form) (w : world) :
  exists o w',
    main_tabs fuel maint w = (o, w') /\
    (o = Ok tt /\
     Consumo_sheet w' = Consumo_sheet w /\ Manutencao_sheet w' = Manutencao_sheet w
     \/
     o = Raise RerunException /\
     (Consumo_sheet w' = Consumo_sheet w \/ Manutencao_sheet w' = Manutencao_sheet w)).
Proof.
  unfold main_tabs, bind.
  destruct (fuel_render_outcome fuel w) as [o1 [w1 [H1 [Hm1 Hc1]]]].
  rewrite H1. destruct Hc1 as [[-> Hc1]| ->].
  - destruct (maintenance_render_outcome maint w1) as [o2 [w2 [H2 [Hc2 Hm2]]]].
    rewrite H2. destruct Hm2 as [[-> Hm2]| ->].
    + destruct (reports_render_sheets w2) as [w3 [H3 [Hc3 [Hm3 _]]]].
      rewrite H3. eexists. eexists. split; [reflexivity|]. left.
      rewrite Hc3, Hc2, Hc1, Hm3, Hm2, Hm1. auto.
    + eexists. eexists. split; [reflexivity|]. right.
      rewrite Hc2, Hc1. auto.
  - eexists. eexists. split; [reflexivity|]. right. auto.
Qed.

(** ** The processor on any frame with columns *)

Lemma filter_partition_perm {A} (p : A -> bool) (l : list A) :
  Permutation (filter p l ++ filter (fun x => negb (p x)) l) l.
Proof.
  induction l as [|x t IH]; simpl.
  - apply perm_nil.
  - destruct (p x); simpl.
    + apply perm_skip, IH.
    + apply Permutation_sym.
      apply perm_trans with (x :: filter p t ++ filter (fun y => negb (p y)) t).
      * apply perm_skip, Permutation_sym, IH.
      * apply Permutation_middle.
Qed.

Lemma loc_veiculo_other {R} `{Row R} (a v : string) (l : list R) :
  v <> a ->
  loc_veiculo v (filter (fun r => negb (String.eqb (Veiculo r) a)) l) = loc_veiculo v l.
Proof.
  intros Hne. unfold loc_veiculo. induction l as [|r t IH]; simpl.
  - reflexivity.
  - destruct (String.eqb (Veiculo r) a) eqn:Ha; simpl.
    + apply String.eqb_eq in Ha.
      assert (Hv : String.eqb (Veiculo r) v = false).
      { apply String.eqb_neq. congruence. }
      rewrite Hv. exact IH.
    + rewrite IH. reflexivity.
Qed.

(** The groups of the vehicles make up the whole frame. *)
Lemma loc_veiculo_partition {R} `{Row R} (vs : list string) :
  NoDup vs ->
  forall l : list R,
    (forall r, In r l -> In (Veiculo r) vs) ->
    Permutation (flat_map (fun v => loc_veiculo v l) vs) l.
Proof.
  induction 1 as [|a t Ha Hnd IH]; intros l Hl; simpl.
  - destruct l as [|r l]; [apply perm_nil|]. destruct (Hl r (or_introl eq_refl)).
  - set (l' := filter (fun r => negb (String.eqb (Veiculo r) a)) l).
    assert (Hsame : flat_map (fun v => loc_veiculo v l) t
                    = flat_map (fun v => loc_veiculo v l') t).
    { rewrite !flat_map_concat_map. f_equal. apply map_ext_in.
      intros v Hv. symmetry. apply loc_veiculo_other. intros ->. contradiction. }
    rewrite Hsame.
    apply perm_trans with (loc_veiculo a l ++ l')%list.
    + apply Permutation_app_head. apply IH.
      intros r Hr. apply filter_In in Hr. destruct Hr as [Hr Hne].
      destruct (Hl r Hr) as [Heq|Hin]; [|exact Hin].
      rewrite <- Heq, String.eqb_refl in Hne. discriminate.
    + apply (filter_partition_perm (fun r => String.eqb (Veiculo r) a)).
Qed.

Lemma efficiency_samples_length (g : list fuel_row) :
  length (efficiency_samples g) = pred (length g).
Proof.
  rewrite <- (length_map base), efficiency_samples_base.
  destruct g; reflexivity.
Qed.

Lemma samples_count (g : string -> list fuel_row) (vs : list string) :
  (forall v, In v vs -> g v <> []) ->
  (length (List.concat (map (fun v => efficiency_samples (g v)) vs)) + length vs
   = length (flat_map g vs))%nat.
Proof.
  induction vs as [|a t IH]; intros Hne; simpl.
  - reflexivity.
  - rewrite !length_app, efficiency_samples_length.
    assert (Ha : g a <> []) by (apply Hne; left; reflexivity).
    assert (Hlen : (1 <= length (g a))%nat).
    { destruct (g a); [contradiction|simpl; lia]. }
    specialize (IH (fun v Hv => Hne v (or_intror Hv))). lia.
Qed.

Lemma sorted_liters (rows : list fuel_row) (v : string) :
  Forall (fun r => 0 < Litros r) rows ->
  Forall (fun r => 0 < Litros r) (loc_veiculo v (sort_values rows)).
Proof.
  intros Hall. apply Forall_forall. intros r Hr.
  apply filter_In in Hr. destruct Hr as [Hr _].
  apply (Permutation_in _ (sort_values_perm rows)) in Hr.
  rewrite Forall_forall in Hall. apply Hall, Hr.
Qed.

(** X9. On records that all have liters > 0, the processor returns as many
    rows as it was given minus one per distinct vehicle. *)
Theorem processar_row_count (rows : list fuel_row) :
  Forall (fun r => 0 < Litros r) rows ->
  exists out,
    ReportsUI._processar_dados_consumo (Table rows) = Ok out /\
    (length (frame_rows out) + length (unique (map Veiculo rows)) = length rows)%nat.
Proof.
  intros Hall. destruct (processar_rows rows) as [out [Hout Hrows]].
  exists out. split; [exact Hout|]. rewrite Hrows.
  set (vs := unique (map Veiculo (sort_values rows))).
  assert (Hmap : map (fun veiculo =>
                        ReportsUI.processar_veiculo (loc_veiculo veiculo (sort_values rows))) vs
                 = map (fun v => efficiency_samples (loc_veiculo v (sort_values rows))) vs).
  { apply map_ext. intros v. apply processar_veiculo_samples, sorted_liters, Hall. }
  rewrite Hmap.
  assert (Hvs : length (unique (map Veiculo rows)) = length vs).
  { apply Permutation_length. apply NoDup_Permutation; try apply unique_NoDup.
    intros v. unfold vs. rewrite !unique_In. split; intros Hin;
      apply in_map_iff in Hin; destruct Hin as [r [<- Hr]]; apply in_map.
    - apply (Permutation_in _ (Permutation_sym (sort_values_perm rows))), Hr.
    - apply (Permutation_in _ (sort_values_perm rows)), Hr. }
  rewrite Hvs, samples_count.
  - apply Permutation_length.
    apply perm_trans with (sort_values rows); [|apply sort_values_perm].
    apply loc_veiculo_partition; [apply unique_NoDup|].
    intros r Hr. apply unique_In, in_map, Hr.
  - intros v Hv Hnil. apply loc_veiculo_nil_iff in Hnil.
    apply Hnil. unfold vs in Hv. rewrite unique_In in Hv. exact Hv.
Qed.

(** X10. On records that all have liters > 0, a vehicle has rows in the
    processed frame, and so statistics on the report page, exactly when it
    has at least two fuel records. *)
Theorem processar_vehicle_needs_two_records (rows : list fuel_row) (veiculo : string) :
  Forall (fun r => 0 < Litros r) rows ->
  exists out,
    ReportsUI._processar_dados_consumo (Table rows) = Ok out /\
    (In veiculo (unique (map Veiculo (frame_rows out))) <->
     (2 <= length (loc_veiculo veiculo rows))%nat).
Proof.
  intros Hall.
  destruct (processar_loc_veiculo rows veiculo) as [out [Hout Hloc]].
  exists out. split; [exact Hout|].
  rewrite (processar_veiculo_samples (sorted_liters veiculo Hall)) in Hloc.
  rewrite unique_In.
  assert (Hlen : length (loc_veiculo veiculo (frame_rows out))
                 = pred (length (loc_veiculo veiculo rows))).
  { rewrite Hloc, efficiency_samples_length. f_equal.
    apply Permutation_length, loc_veiculo_perm, sort_values_perm. }
  split.
  - intros Hin.
    destruct (loc_veiculo veiculo (frame_rows out)) as [|r t] eqn:Hl.
    + apply loc_veiculo_nil_iff in Hl. contradiction.
    + simpl in Hlen. lia.
  - intros Htwo.
    destruct (in_dec string_dec veiculo (map Veiculo (frame_rows out))) as [Hin|Hn];
      [exact Hin|].
    apply loc_veiculo_nil_iff in Hn. rewrite Hn in Hlen. simpl in Hlen. lia.
Qed.

Lemma last_cons_default {A} (x d : A) (t : list A) : last (x :: t) d = last t x.
Proof.
  revert x d. induction t as [|y t IH]; intros x d; [reflexivity|].
  change (last (x :: y :: t) d) with (last (y :: t) d).
  rewrite (IH y d), (IH y x). reflexivity.
Qed.

Lemma samples_km_not_na (prev : fuel_row) (later : list fuel_row) :
  filter (fun x => negb (isna x)) (map km_diff (samples_from prev later))
  = map km_diff (samples_from prev later).
Proof.
  revert prev. induction later as [|cur t IH]; intros prev; simpl.
  - reflexivity.
  - rewrite IH. reflexivity.
Qed.

Lemma samples_km_fold (prev : fuel_row) (later : list fuel_row) (a : Q) :
  exists q,
    fold_left fadd (map km_diff (samples_from prev later)) (Fin a) = Fin q /\
    q == a + (Quilometragem (last later prev) - Quilometragem prev).
Proof.
  revert prev a. induction later as [|cur t IH]; intros prev a.
  - exists a. split; [reflexivity|]. simpl. ring.
  - destruct (IH cur (a + (Quilometragem cur - Quilometragem prev))) as [q [Hq Heq]].
    exists q. split; [exact Hq|].
    rewrite last_cons_default, Heq. ring.
Qed.

(** X11. On records that all have liters > 0, the kilometres shown for a
    vehicle (the sum of its distance deltas) telescope: in exact arithmetic
    they equal the odometer of the vehicle's last record in date order minus
    the odometer of its first. *)
Theorem processar_km_telescopes (rows : list fuel_row) (veiculo : string) :
  Forall (fun r => 0 < Litros r) rows ->
  exists out g,
    ReportsUI._processar_dados_consumo (Table rows) = Ok out /\
    Permutation g (loc_veiculo veiculo rows) /\
    StronglySorted date_le g /\
    forall first later,
      g = first :: later ->
      exists km,
        series_sum (map km_diff (loc_veiculo veiculo (frame_rows out))) = Fin km /\
        km == Quilometragem (last later first) - Quilometragem first.
Proof.
  intros Hall.
  destruct (processar_loc_veiculo rows veiculo) as [out [Hout Hloc]].
  exists out, (loc_veiculo veiculo (sort_values rows)).
  split; [exact Hout|].
  split; [apply loc_veiculo_perm, sort_values_perm|].
  split; [apply loc_veiculo_sorted, sort_values_sorted|].
  intros first later Hg.
  rewrite Hloc, (processar_veiculo_samples (sorted_liters veiculo Hall)), Hg.
  simpl. unfold series_sum. rewrite samples_km_not_na.
  destruct (samples_km_fold first later 0) as [q [Hq Heq]].
  exists q. split; [exact Hq|]. rewrite Heq. ring.
Qed.

(** ** The order of the rows in the sheet *)

Lemma key_le_antisym {R} `{Row R} (x y : R) :
  key_le x y -> key_le y x -> Veiculo x = Veiculo y /\ Data x = Data y.
Proof.
  unfold key_le, key_leb.
  destruct (String.compare (Veiculo x) (Veiculo y)) eqn:Hxy; try discriminate.
  - apply compare_Eq_eq in Hxy. rewrite Hxy, compare_refl.
    intros H1 H2. split; [reflexivity|]. apply Z.leb_le in H1, H2. lia.
  - rewrite (String.compare_antisym (Veiculo y) (Veiculo x)), Hxy. simpl.
    intros _ H2. discriminate H2.
Qed.

Lemma sorted_perm_unique {R} `{Row R} (l l' : list R) :
  StronglySorted key_le l -> StronglySorted key_le l' ->
  Permutation l l' -> distinct_keys l -> l = l'.
Proof.
  intros Hs. revert l'. induction Hs as [|a t Hs IH Hall]; intros l' Hs' Hp Hd.
  - apply Permutation_nil in Hp. congruence.
  - destruct Hs' as [|b t' Hs' Hall'].
    + apply Permutation_sym, Permutation_nil in Hp. discriminate.
    + assert (Hab : a = b).
      { assert (Ha : In a (b :: t')) by (apply (Permutation_in _ Hp); left; reflexivity).
        assert (Hb : In b (a :: t))
          by (apply (Permutation_in _ (Permutation_sym Hp)); left; reflexivity).
        destruct Ha as [Ha|Ha]; [congruence|].
        destruct Hb as [Hb|Hb]; [congruence|].
        rewrite Forall_forall in Hall, Hall'.
        destruct (key_le_antisym (Hall _ Hb) (Hall' _ Ha)) as [Hv Hdt].
        apply Hd; [left; reflexivity|right; exact Hb|exact Hv|exact Hdt]. }
      subst b. f_equal. apply IH; [exact Hs'|exact (Permutation_cons_inv Hp)|].
      intros x y Hx Hy. apply Hd; right; assumption.
Qed.

(** X12. When no two rows have both the same vehicle and the same date, the
    processor does not depend on the order of the rows in the worksheet: two
    sheets with the same rows give the same processed frame. *)
Theorem processar_ignores_row_order (rows rows' : list fuel_row) :
  Permutation rows rows' ->
  distinct_keys rows ->
  ReportsUI._processar_dados_consumo (Table rows)
  = ReportsUI._processar_dados_consumo (Table rows').
Proof.
  intros Hp Hd.
  assert (Hsort : sort_values rows = sort_values rows').
  { apply sorted_perm_unique; try apply sort_values_sorted.
    - apply perm_trans with rows; [apply sort_values_perm|].
      apply perm_trans with rows'; [exact Hp|].
      apply Permutation_sym, sort_values_perm.
    - intros x y Hx Hy. apply Hd;
        apply (Permutation_in _ (sort_values_perm rows)); assumption. }
  unfold ReportsUI._processar_dados_consumo. rewrite Hsort. reflexivity.
Qed.

(** ** No assumption on liters *)

Lemma filter_length_le {A} (p : A -> bool) (l : list A) :
  (length (filter p l) <= length l)%nat.
Proof.
  induction l as [|x t IH]; simpl; [lia|]. destruct (p x); simpl; lia.
Qed.

Lemma processar_veiculo_length (g : list fuel_row) :
  (length (ReportsUI.processar_veiculo g) <= pred (length g))%nat.
Proof.
  unfold ReportsUI.processar_veiculo. destruct g as [|first later]; simpl.
  - lia.
  - eapply Nat.le_trans; [apply filter_length_le|].
    rewrite length_map, length_combine. lia.
Qed.

(** X13. Whatever the liters are, on a frame with columns the processor
    returns a frame and never raises (a zero divisor gives an infinity or
    NaN, not an exception). Every row it returns carries one of the given
    records, with an efficiency that is its distance delta divided by its
    liters and is not NaN; and for every vehicle at least one record, if
    there is any, yields no row. *)
Theorem processar_without_assumptions (rows : list fuel_row) :
  exists out,
    ReportsUI._processar_dados_consumo (Table rows) = Ok out /\
    (forall r, In r (frame_rows out) ->
               In (base r) rows /\
               isna (consumo_km_l r) = false /\
               consumo_km_l r = fdiv (km_diff r) (Fin (Litros (base r)))) /\
    (forall veiculo,
        (length (loc_veiculo veiculo (frame_rows out))
         <= pred (length (loc_veiculo veiculo rows)))%nat).
Proof.
  destruct (processar_rows rows) as [out [Hout Hrows]].
  exists out. split; [exact Hout|]. split.
  - intros r Hr. rewrite Hrows in Hr. apply in_concat in Hr.
    destruct Hr as [grp [Hgrp Hr]]. apply in_map_iff in Hgrp.
    destruct Hgrp as [v [<- _]]. split.
    + apply processar_veiculo_base in Hr. apply filter_In in Hr.
      destruct Hr as [Hr _]. apply (Permutation_in _ (sort_values_perm rows)), Hr.
    + unfold ReportsUI.processar_veiculo in Hr. apply filter_In in Hr.
      destruct Hr as [Hr Hna]. apply negb_true_iff in Hna. split; [exact Hna|].
      apply in_map_iff in Hr. destruct Hr as [[x d] [<- _]]. reflexivity.
  - intros v. destruct (processar_loc_veiculo rows v) as [out' [Hout' Hloc]].
    rewrite Hout in Hout'. injection Hout' as <-. rewrite Hloc.
    eapply Nat.le_trans; [apply processar_veiculo_length|].
    rewrite (Permutation_length (loc_veiculo_perm v (sort_values_perm rows))). lia.
Qed.

(** X14. A later record of a vehicle with zero liters does not make the
    processor raise: if its odometer is above the previous one its row has
    efficiency +infinity, if below -infinity, and if the odometer did not
    move (0/0 is NaN) the row is dropped and the frame is left without
    rows. *)
Theorem processar_zero_liters (r1 r2 : fuel_row) :
  Veiculo r1 = Veiculo r2 ->
  (Data r1 < Data r2)%Z ->
  Litros r2 == 0 ->
  let delta := Quilometragem r2 - Quilometragem r1 in
  ReportsUI._processar_dados_consumo (Table [r1; r2])
  = Ok (Table match delta ?= 0 with
              | Eq => []
              | Lt => [mk_proc r2 (Fin delta) (Inf true)]
              | Gt => [mk_proc r2 (Fin delta) (Inf false)]
              end).
Proof.
  intros Hv Hd Hl delta.
  assert (Hsort : sort_values [r1; r2] = [r1; r2]).
  { simpl. unfold key_leb. simpl in *. rewrite Hv, compare_refl.
    replace (fuel_Data r1 <=? fuel_Data r2)%Z with true; [reflexivity|].
    symmetry. apply Z.leb_le. lia. }
  unfold ReportsUI._processar_dados_consumo. rewrite Hsort.
  simpl in Hv. simpl. rewrite <- Hv, String.eqb_refl. simpl.
  unfold ReportsUI.processar_veiculo. simpl.
  apply Qeq_bool_iff in Hl. rewrite Hl. subst delta.
  destruct (Quilometragem r2 - Quilometragem r1 ?= 0); reflexivity.
Qed.

(** ** Totals add up *)

Lemma fold_Qplus_acc (l : list Q) (a : Q) :
  fold_left Qplus l a == a + fold_left Qplus l 0.
Proof.
  revert a. induction l as [|x t IH]; intros a; simpl.
  - ring.
  - rewrite (IH (a + x)), (IH (0 + x)). ring.
Qed.

Lemma Qsum_cons (x : Q) (l : list Q) : Qsum (x :: l) == x + Qsum l.
Proof. unfold Qsum. simpl. rewrite fold_Qplus_acc. ring. Qed.

Lemma Qsum_app (l l' : list Q) : Qsum (l ++ l') == Qsum l + Qsum l'.
Proof.
  induction l as [|x t IH]; simpl.
  - unfold Qsum at 2. simpl. ring.
  - rewrite !Qsum_cons, IH. ring.
Qed.

Lemma Qsum_perm (l l' : list Q) : Permutation l l' -> Qsum l == Qsum l'.
Proof.
  induction 1 as [|x l l' _ IH|x y l|l l' l'' _ IH1 _ IH2].
  - reflexivity.
  - rewrite !Qsum_cons, IH. reflexivity.
  - rewrite !Qsum_cons. ring.
  - rewrite IH1. exact IH2.
Qed.

Lemma add_to_group_sum (k : string) (x : Q) (acc : list (string * Q)) :
  Qsum (map snd (add_to_group k x acc)) == Qsum (map snd acc) + x.
Proof.
  induction acc as [|[k' s] t IH]; simpl.
  - rewrite Qsum_cons. unfold Qsum. simpl. ring.
  - destruct (String.compare k k'); simpl.
    + rewrite !Qsum_cons. ring.
    + rewrite !Qsum_cons. simpl. ring.
    + rewrite !Qsum_cons, IH. simpl. ring.
Qed.

Lemma groupby_sum_from (rows : list maint_row) (acc : list (string * Q)) :
  Qsum (map snd (fold_left (fun acc r => add_to_group (Veiculo r) (Valor r) acc) rows acc))
  == Qsum (map snd acc) + Qsum (map Valor rows).
Proof.
  revert acc. induction rows as [|r t IH]; intros acc; simpl.
  - unfold Qsum at 3. simpl. ring.
  - rewrite IH, add_to_group_sum, Qsum_cons. simpl. ring.
Qed.

(** X15. The maintenance totals shown per vehicle add up, in exact
    arithmetic, to the overall maintenance total. *)
Theorem maintenance_totals_add_up (rows : list maint_row) :
  Qsum (map snd (groupby_Veiculo_Valor_sum rows)) == Qsum (map Valor rows).
Proof.
  unfold groupby_Veiculo_Valor_sum. rewrite groupby_sum_from.
  unfold Qsum at 1. simpl. ring.
Qed.

Lemma Qsum_flat_map {A B} (f : B -> Q) (g : A -> list B) (vs : list A) :
  Qsum (map f (flat_map g vs)) == Qsum (map (fun v => Qsum (map f (g v))) vs).
Proof.
  induction vs as [|a t IH]; simpl.
  - reflexivity.
  - rewrite map_app, Qsum_app, Qsum_cons, IH. reflexivity.
Qed.

Lemma fuel_costs_partition_sum (rows : list proc_row) :
  Qsum (map (fun veiculo =>
               Qsum (map (fun r => Valor_Total (base r)) (loc_veiculo veiculo rows)))
          (unique (map Veiculo rows)))
  == Qsum (map (fun r => Valor_Total (base r)) rows).
Proof.
  rewrite <- (Qsum_flat_map (fun r => Valor_Total (base r))
                (fun v => loc_veiculo v rows)).
  apply Qsum_perm, Permutation_map.
  apply loc_veiculo_partition; [apply unique_NoDup|].
  intros r Hr. apply unique_In, in_map, Hr.
Qed.

(** X16. On a processed frame with rows, [_render_fuel_statistics] shows,
    for each vehicle of the frame, a cost, a distance and a mean, then the
    overall cost and distance; and the overall cost it shows is, in exact
    arithmetic, the sum of the per-vehicle costs it shows. *)
Theorem fuel_cost_totals_add_up (rows : list proc_row) (w : world) :
  rows <> [] ->
  exists (cost : string -> Q) (km mean : string -> float64)
         (total : Q) (km_total : float64),
    ReportsUI._render_fuel_statistics (Table rows) w
    = (Ok tt,
       emit_all
         ([st_subheader "Estatísticas por Veículo"] ++
          flat_map (fun v =>
                      [ st_metric ("Custo Total com Combustível - " ++ v) (Fin (cost v));
                        st_metric ("Quilômetros Percorridos - " ++ v) (km v);
                        st_metric ("Consumo Médio - " ++ v) (mean v) ])
                   (unique (map Veiculo rows)) ++
          [ st_subheader "Estatísticas de Consumo";
            st_metric "Custo Total com Combustível" (Fin total);
            st_metric "Quilômetros Percorridos" km_total ]) w) /\
    Qsum (map cost (unique (map Veiculo rows))) == total.
Proof.
  intros Hne.
  exists (fun v => Qsum (map (fun r => Valor_Total (base r)) (loc_veiculo v rows))),
    (fun v => series_sum (map km_diff (loc_veiculo v rows))),
    (fun v => series_mean (map consumo_km_l (loc_veiculo v rows))),
    (Qsum (map (fun r => Valor_Total (base r)) rows)),
    (series_sum (map km_diff rows)).
  split.
  - rewrite render_fuel_statistics_Table. unfold fuel_statistics_widgets.
    destruct rows as [|r t]; [contradiction|]. reflexivity.
  - apply fuel_costs_partition_sum.
Qed.

(** ** The tables of records *)

(** X17. Below each form, the table of records is shown exactly when the
    worksheet can be read and has at least one row; a failed read shows its
    error instead, an empty worksheet shows nothing. In all cases the page
    returns normally and the worksheet is not touched. *)
Theorem display_records_table_iff_rows (w : world) :
  (exists w' more,
      FuelConsumptionUI._display_fuel_records w = (Ok tt, w') /\
      ui w' = (ui w ++ [st_divider; st_subheader "Registros de Consumo"] ++ more)%list /\
      (In st_dataframe more <->
       read_error (Consumo_sheet w) = None /\ contents (Consumo_sheet w) <> []) /\
      (forall msg, read_error (Consumo_sheet w) = Some msg ->
                   more = [st_error ("Erro ao ler dados: " ++ msg)]) /\
      Consumo_sheet w' = Consumo_sheet w) /\
  (exists w' more,
      MaintenanceUI._display_maintenance_records w = (Ok tt, w') /\
      ui w' = (ui w ++ [st_divider; st_subheader "Registros de Manutenção"] ++ more)%list /\
      (In st_dataframe more <->
       read_error (Manutencao_sheet w) = None /\ contents (Manutencao_sheet w) <> []) /\
      (forall msg, read_error (Manutencao_sheet w) = Some msg ->
                   more = [st_error ("Erro ao ler dados: " ++ msg)]) /\
      Manutencao_sheet w' = Manutencao_sheet w).
Proof.
  destruct w as [[c1 re1 ue1] [c2 re2 ue2] u k]. split.
  - unfold FuelConsumptionUI._display_fuel_records.
    destruct re1 as [m|]; [|destruct c1 as [|r t]].
    + eexists. exists [st_error ("Erro ao ler dados: " ++ m)].
      split; [reflexivity|]. simpl.
      split; [rewrite <- !app_assoc; reflexivity|].
      split; [|split; [intros msg Hm; congruence|reflexivity]].
      split; [intros [H|[]]; discriminate H|intros [H _]; discriminate H].
    + eexists. exists [].
      split; [reflexivity|]. simpl.
      split; [rewrite <- !app_assoc; reflexivity|].
      split; [|split; [intros msg Hm; discriminate|reflexivity]].
      split; [intros []|intros [_ H]; congruence].
    + eexists. exists [st_dataframe].
      split; [reflexivity|]. simpl.
      split; [rewrite <- !app_assoc; reflexivity|].
      split; [|split; [intros msg Hm; discriminate|reflexivity]].
      split; [intros _; split; [reflexivity|discriminate]|intros _; left; reflexivity].
  - unfold MaintenanceUI._display_maintenance_records.
    destruct re2 as [m|]; [|destruct c2 as [|r t]].
    + eexists. exists [st_error ("Erro ao ler dados: " ++ m)].
      split; [reflexivity|]. simpl.
      split; [rewrite <- !app_assoc; reflexivity|].
      split; [|split; [intros msg Hm; congruence|reflexivity]].
      split; [intros [H|[]]; discriminate H|intros [H _]; discriminate H].
    + eexists. exists [].
      split; [reflexivity|]. simpl.
      split; [rewrite <- !app_assoc; reflexivity|].
      split; [|split; [intros msg Hm; discriminate|reflexivity]].
      split; [intros []|intros [_ H]; congruence].
    + eexists. exists [st_dataframe].
      split; [reflexivity|]. simpl.
      split; [rewrite <- !app_assoc; reflexivity|].
      split; [|split; [intros msg Hm; discriminate|reflexivity]].
      split; [intros _; split; [reflexivity|discriminate]|intros _; left; reflexivity].
Qed.

(** ** A run without a submission *)

Lemma fuel_render_without_submit (f : FuelConsumptionUI.form) (w : world) :
  FuelConsumptionUI.fuel_submit f = false ->
  exists w',
    FuelConsumptionUI.render f w = (Ok tt, w') /\
    Consumo_sheet w' = Consumo_sheet w /\
    Manutencao_sheet w' = Manutencao_sheet w /\
    calls w' = (calls w ++ [conn_read_call (ws_name Consumo)])%list.
Proof.
  intros Hs. unfold FuelConsumptionUI.render, FuelConsumptionUI._display_fuel_records.
  rewrite Hs. destruct w as [[c1 re1 ue1] m u k].
  destruct re1 as [rm|]; [|destruct c1 as [|r t]];
    (eexists; split; [reflexivity|]; simpl; auto).
Qed.

Lemma maintenance_render_without_submit (f : MaintenanceUI.form) (w : world) :
  MaintenanceUI.maint_submit f = false ->
  exists w',
    MaintenanceUI.render f w = (Ok tt, w') /\
    Consumo_sheet w' = Consumo_sheet w /\
    Manutencao_sheet w' = Manutencao_sheet w /\
    calls w' = (calls w ++ [conn_read_call (ws_name Manutencao)])%list.
Proof.
  intros Hs.
  unfold MaintenanceUI.render, MaintenanceUI._display_maintenance_records.
  rewrite Hs. destruct w as [c [c2 re2 ue2] u k].
  destruct re2 as [rm|]; [|destruct c2 as [|r t]];
    (eexists; split; [reflexivity|]; simpl; auto).
Qed.

(** X18. A run in which no button was pressed renders the three pages to
    the end and writes nothing: it returns normally, both worksheets are as
    before, and the connection was only read, each worksheet twice (once for
    its table of records, once for the report). *)
Theorem main_tabs_without_submission (fuel : FuelConsumptionUI.form)
  (maint : MaintenanceUI.form) (w : world) :
  FuelConsumptionUI.fuel_submit fuel = false ->
  MaintenanceUI.maint_submit maint = false ->
  exists w',
    main_tabs fuel maint w = (Ok tt, w') /\
    Consumo_sheet w' = Consumo_sheet w /\
    Manutencao_sheet w' = Manutencao_sheet w /\
    calls w' = (calls w ++ [conn_read_call "Consumo"; conn_read_call "Manutenção";
                            conn_read_call "Consumo"; conn_read_call "Manutenção"])%list.
Proof.
  intros Hf Hm. unfold main_tabs, bind.
  destruct (fuel_render_without_submit fuel w Hf) as [w1 [H1 [Hc1 [Hm1 Hk1]]]].
  rewrite H1.
  destruct (maintenance_render_without_submit maint w1 Hm) as [w2 [H2 [Hc2 [Hm2 Hk2]]]].
  rewrite H2.
  destruct (reports_render_sheets w2) as [w3 [H3 [Hc3 [Hm3 [reads [Hk3 ->]]]]]].
  exists w3. split; [exact H3|].
  rewrite Hc3, Hc2, Hc1, Hm3, Hm2, Hm1, Hk3, Hk2, Hk1.
  simpl. rewrite <- !app_assoc. simpl. auto.
Qed.

(** ** The further properties at concrete inputs *)

Lemma add_data_write_failure_witness :
  let w := world_unwritable [abastecimento1] in
  exists w',
    DataManager.add_data Consumo abastecimento2 w = (Ok false, w') /\
    ws_get Consumo w' = ws_get Consumo w /\
    ui w' = (ui w ++
             match read_error (ws_get Consumo w) with
             | Some rmsg => [st_error ("Erro ao ler dados: " ++ rmsg)]
             | None => []
             end ++
             [st_error ("Erro ao adicionar dados: " ++ "quota exceeded")])%list /\
    calls w' = (calls w ++ [conn_read_call (ws_name Consumo);
                            conn_update_call (ws_name Consumo)])%list.
Proof.
  intros w.
  exact (add_data_write_failure Consumo_lawful w abastecimento2 eq_refl).
Defined.

Lemma add_all_with_failing_read_keeps_last_witness :
  let w := world_unreadable [abastecimento1] in
  exists w',
    add_all Consumo ([abastecimento2] ++ [abastecimento3]) w
    = (Ok (map (fun _ => true) ([abastecimento2] ++ [abastecimento3])), w') /\
    contents (ws_get Consumo w') = [abastecimento3].
Proof.
  intros w.
  exact (add_all_with_failing_read_keeps_last Consumo_lawful w [abastecimento2]
           abastecimento3 eq_refl eq_refl).
Defined.

Lemma fuel_submission_appends_and_reruns_witness :
  let f := FuelConsumptionUI.mk_form "Carro" 738030%Z 1500 10 5 true in
  let w := world_of [abastecimento1] [] in
  exists w',
    FuelConsumptionUI.render f w = (Raise RerunException, w') /\
    contents (Consumo_sheet w')
    = [abastecimento1; mk_fuel 738030%Z "Carro" 1500 10 5 (10 * 5)] /\
    Manutencao_sheet w' = Manutencao_sheet w.
Proof.
  intros f w.
  destruct (@fuel_submission_appends_and_reruns f w) as [w' [H1 [H2 [_ [H4 _]]]]];
    try reflexivity.
  exists w'. split; [exact H1|]. split; [exact H2|exact H4].
Defined.

Lemma maintenance_submission_appends_and_reruns_witness :
  let f := MaintenanceUI.mk_form "Moto" "chain" 30 738002%Z true in
  let w := world_of [] [] in
  exists w',
    MaintenanceUI.render f w = (Raise RerunException, w') /\
    contents (Manutencao_sheet w') = [mk_maint 738002%Z "Moto" "chain" 30] /\
    Consumo_sheet w' = Consumo_sheet w.
Proof.
  intros f w.
  destruct (@maintenance_submission_appends_and_reruns f w)
    as [w' [H1 [H2 [_ [H4 _]]]]]; try reflexivity.
  - discriminate.
  - exists w'. split; [exact H1|]. split; [exact H2|exact H4].
Defined.

Lemma valid_submission_reaches_store_witness :
  let s := FuelSubmission "Carro" 738030%Z 1500 10 5 50 in
  let w := world_unreadable [abastecimento1] in
  ~ fails_validation s /\
  exists o w' more,
    handle_submission s w = (o, w') /\
    calls w' = (calls w ++ [conn_read_call (target_name s);
                            conn_update_call (target_name s)])%list /\
    ui w' = (ui w ++ more)%list /\
    ~ In (st_warning warning_text) more.
Proof.
  intros s w.
  assert (H : ~ fails_validation s).
  { simpl. intros [H|[H|H]]; vm_compute in H; apply H; reflexivity. }
  exact (conj H (valid_submission_reaches_store s w H)).
Defined.

Lemma valid_submission_write_failure_witness :
  let s := FuelSubmission "Carro" 738030%Z 1500 10 5 50 in
  let w := world_unwritable [abastecimento1] in
  exists w' more,
    handle_submission s w = (Ok tt, w') /\
    Consumo_sheet w' = Consumo_sheet w /\
    Manutencao_sheet w' = Manutencao_sheet w /\
    ui w' = (ui w ++ more ++ [st_error ("Erro ao adicionar dados: " ++ "quota exceeded")])%list /\
    (forall x, In x more -> exists m, x = st_error m).
Proof.
  intros s w.
  apply (@valid_submission_write_failure s w "quota exceeded").
  - simpl. intros [H|[H|H]]; vm_compute in H; apply H; reflexivity.
  - reflexivity.
Defined.

Lemma processar_row_count_witness :
  let rows := [abastecimento2; abastecimento3; abastecimento1] in
  exists out,
    ReportsUI._processar_dados_consumo (Table rows) = Ok out /\
    (length (frame_rows out) + length (unique (map Veiculo rows)) = length rows)%nat.
Proof.
  intros rows. apply (@processar_row_count rows).
  repeat first [apply Forall_nil | apply Forall_cons; [reflexivity|]].
Defined.

Lemma processar_vehicle_needs_two_records_witness :
  let rows := [abastecimento2; abastecimento3; abastecimento1] in
  exists out,
    ReportsUI._processar_dados_consumo (Table rows) = Ok out /\
    (In "Moto" (unique (map Veiculo (frame_rows out))) <->
     (2 <= length (loc_veiculo "Moto" rows))%nat).
Proof.
  intros rows. apply (@processar_vehicle_needs_two_records rows "Moto").
  repeat first [apply Forall_nil | apply Forall_cons; [reflexivity|]].
Defined.

Lemma processar_km_telescopes_witness :
  let rows := [abastecimento2; abastecimento3; abastecimento1] in
  exists out g,
    ReportsUI._processar_dados_consumo (Table rows) = Ok out /\
    Permutation g (loc_veiculo "Carro" rows) /\
    StronglySorted date_le g /\
    forall first later,
      g = first :: later ->
      exists km,
        series_sum (map km_diff (loc_veiculo "Carro" (frame_rows out))) = Fin km /\
        km == Quilometragem (last later first) - Quilometragem first.
Proof.
  intros rows. apply (@processar_km_telescopes rows "Carro").
  repeat first [apply Forall_nil | apply Forall_cons; [reflexivity|]].
Defined.

Lemma processar_ignores_row_order_witness :
  ReportsUI._processar_dados_consumo (Table [abastecimento1; abastecimento2])
  = ReportsUI._processar_dados_consumo (Table [abastecimento2; abastecimento1]).
Proof.
  apply processar_ignores_row_order.
  - apply perm_swap.
  - intros x y [<-|[<-|[]]] [<-|[<-|[]]] Hv Hd;
      try reflexivity; vm_compute in Hd; discriminate Hd.
Defined.

Lemma processar_zero_liters_witness :
  ReportsUI._processar_dados_consumo (Table [abastecimento2; abastecimento_sem_litros])
  = Ok (Table [mk_proc abastecimento_sem_litros
                 (Fin (Quilometragem abastecimento_sem_litros
                       - Quilometragem abastecimento2))
                 (Inf false)]).
Proof.
  exact (@processar_zero_liters abastecimento2 abastecimento_sem_litros
           eq_refl eq_refl eq_refl).
Defined.

Lemma fuel_cost_totals_add_up_witness :
  let rows := [mk_proc abastecimento2 (Fin 400) (Fin 40)] in
  exists (cost : string -> Q) (km mean : string -> float64)
         (total : Q) (km_total : float64),
    ReportsUI._render_fuel_statistics (Table rows) (world_of [] [])
    = (Ok tt,
       emit_all
         ([st_subheader "Estatísticas por Veículo"] ++
          flat_map (fun v =>
                      [ st_metric ("Custo Total com Combustível - " ++ v) (Fin (cost v));
                        st_metric ("Quilômetros Percorridos - " ++ v) (km v);
                        st_metric ("Consumo Médio - " ++ v) (mean v) ])
                   (unique (map Veiculo rows)) ++
          [ st_subheader "Estatísticas de Consumo";
            st_metric "Custo Total com Combustível" (Fin total);
            st_metric "Quilômetros Percorridos" km_total ]) (world_of [] [])) /\
    Qsum (map cost (unique (map Veiculo rows))) == total.
Proof.
  intros rows. apply (@fuel_cost_totals_add_up rows (world_of [] [])). discriminate.
Defined.

Lemma main_tabs_without_submission_witness :
  let fuel := FuelConsumptionUI.mk_form "Carro" 738030%Z 0 0 0 false in
  let maint := MaintenanceUI.mk_form "Carro" "" 0 738030%Z false in
  let w := world_of [abastecimento1; abastecimento2] manutencoes in
  exists w',
    main_tabs fuel maint w = (Ok tt, w') /\
    Consumo_sheet w' = Consumo_sheet w /\
    Manutencao_sheet w' = Manutencao_sheet w /\
    calls w' = (calls w ++ [conn_read_call "Consumo"; conn_read_call "Manutenção";
                            conn_read_call "Consumo"; conn_read_call "Manutenção"])%list.
Proof.
  intros fuel maint w.
  exact (main_tabs_without_submission fuel maint w eq_refl eq_refl).
Defined.
